(** * DriveAhead: the schedule / standings acquisition pipeline

    A shallow embedding of [website/app_simple.py]: the caching HTTP client
    [JolpicaAPIClient] and the repository [F1DataManager] built on it,
    followed by the properties of the specification that concern them.

    Conventions of the embedding.
    - Python exceptions are values of [exn]; a computation that may raise
      returns a [result].  Methods that touch the cache, the network or the
      clock are functions of a [World] and return the world they leave.
    - A string is the UTF-8 encoding of the Python text.  Whitespace is
      Unicode's, as [str.strip] and [int] see it; digits are the ASCII ones.
    - The third-party payload is modelled at the schema the API documents
      (every scalar is a JSON string); a key may be absent.
    - Names of the [config] module, which the source imports, are section
      variables. *)

From stdpp Require Import base option list strings gmap pretty.
From Stdlib Require Import ZArith Lia Ascii String.

Local Open Scope string_scope.
Local Open Scope Z_scope.

(** ** Exceptions *)

Inductive exn : Type :=
  | KeyError
  | ValueError
  | TypeError
  | IndexError
  | AttributeError
  | OverflowError
  | ZeroDivisionError
  | Timeout               (* requests.exceptions.Timeout *)
  | ConnectionError       (* requests.exceptions.ConnectionError *)
  | HTTPError             (* requests.exceptions.HTTPError *)
  | JSONDecodeError       (* requests.exceptions.JSONDecodeError *)
  | RecursionError.

(** [except requests.exceptions.RequestException]: the four classes of the
    [requests] hierarchy (its [JSONDecodeError] derives from
    [RequestException] since requests 2.27).  [RecursionError] and
    [ValueError] are [Exception]s that are no [RequestException]. *)
Definition is_RequestException (e : exn) : bool :=
  match e with
  | Timeout | ConnectionError | HTTPError | JSONDecodeError => true
  | _ => false
  end.

Inductive result (A : Type) : Type :=
  | Ok (a : A)
  | Raise (e : exn).
Arguments Ok {A} a.
Arguments Raise {A} e.

#[global] Instance result_ret : MRet result := fun A a => Ok a.
#[global] Instance result_bind : MBind result := fun A B f r =>
  match r with
  | Ok a => f a
  | Raise e => Raise e
  end.

Definition is_Ok {A} (r : result A) : bool :=
  match r with Ok _ => true | Raise _ => false end.

(** [d[k]] on a dictionary: [KeyError] when the key is absent. *)
Definition getitem {A} (o : option A) : result A :=
  match o with
  | Some a => Ok a
  | None => Raise KeyError
  end.

(** ** Strings *)

Definition chars (s : string) : list ascii := list_ascii_of_string s.
Definition str (cs : list ascii) : string := string_of_list_ascii cs.

Definition is_digit (c : ascii) : bool :=
  let n := nat_of_ascii c in (48 <=? n)%nat && (n <=? 57)%nat.

Definition digit_value (c : ascii) : Z := Z.of_nat (nat_of_ascii c) - 48.

(** [str.isdigit()]: non-empty and made of digits only. *)
Definition isdigit (s : string) : bool :=
  match chars s with
  | [] => false
  | cs => forallb is_digit cs
  end.

(** The ASCII characters removed by [str.strip()]: tab, line feed, vertical
    tab, form feed, carriage return, the four separators 28..31 and the
    space. *)
Definition is_space (c : ascii) : bool :=
  let n := nat_of_ascii c in
  ((9 <=? n)%nat && (n <=? 13)%nat) || ((28 <=? n)%nat && (n <=? 32)%nat).

(** The ASCII characters [int()] skips around a literal ([Py_ISSPACE]): the
    same without the separators 28..31. *)
Definition is_int_space (c : ascii) : bool :=
  let n := nat_of_ascii c in
  ((9 <=? n)%nat && (n <=? 13)%nat) || (n =? 32)%nat.

(** The whitespace outside ASCII, which both remove, as UTF-8: U+0085 and
    U+00A0 on two bytes; U+1680, U+2000..U+200A, U+2028, U+2029, U+202F,
    U+205F and U+3000 on three. *)
Definition is_space2 (a b : ascii) : bool :=
  let '(a, b) := (nat_of_ascii a, nat_of_ascii b) in
  ((a =? 194) && ((b =? 133) || (b =? 160)))%nat.

Definition is_space3 (a b c : ascii) : bool :=
  let '(a, b, c) := (nat_of_ascii a, nat_of_ascii b, nat_of_ascii c) in
  (((a =? 225) && (b =? 154) && (c =? 128))
   || ((a =? 226) && (b =? 128) &&
       (((128 <=? c) && (c <=? 138)) || (c =? 168) || (c =? 169) || (c =? 175)))
   || ((a =? 226) && (b =? 129) && (c =? 159))
   || ((a =? 227) && (b =? 128) && (c =? 128)))%nat.

(** Removes the whitespace [cs] opens with; [ascii_space] tells the
    one-byte whitespace.  With [backwards], [cs] is the text read from its
    end, and so are the bytes of each character. *)
Fixpoint lstrip_with (ascii_space : ascii → bool) (backwards : bool)
    (cs : list ascii) : list ascii :=
  match cs with
  | a :: r1 =>
      if ascii_space a then lstrip_with ascii_space backwards r1
      else
        match r1 with
        | b :: r2 =>
            if (if backwards then is_space2 b a else is_space2 a b)
            then lstrip_with ascii_space backwards r2
            else
              match r2 with
              | c :: r3 =>
                  if (if backwards then is_space3 c b a else is_space3 a b c)
                  then lstrip_with ascii_space backwards r3
                  else cs
              | [] => cs
              end
        | [] => cs
        end
  | [] => []
  end.

Definition strip_with (ascii_space : ascii → bool) (cs : list ascii) : list ascii :=
  rev (lstrip_with ascii_space true (rev (lstrip_with ascii_space false cs))).

Definition lstrip (cs : list ascii) : list ascii := lstrip_with is_space false cs.

Definition strip_chars (cs : list ascii) : list ascii := strip_with is_space cs.

Definition strip (s : string) : string := str (strip_chars (chars s)).

(** [c in s] for a one-character needle. *)
Definition contains (c : ascii) (s : string) : bool :=
  existsb (Ascii.eqb c) (chars s).

(** [s.replace(c, new)] for a one-character pattern. *)
Definition replace (c : ascii) (new : string) (s : string) : string :=
  str (flat_map (fun x => if Ascii.eqb x c then chars new else [x]) (chars s)).

(** Value of a run of decimal digits, most significant first. *)
Definition digits_value (cs : list ascii) : Z :=
  fold_left (fun acc c => 10 * acc + digit_value c) cs 0.

(** The digits of an [int()] literal: digit (["_"] digit)*. *)
Fixpoint int_digits (cs : list ascii) : option (list ascii) :=
  match cs with
  | [] => None
  | c :: rest =>
      if is_digit c then
        match rest with
        | [] => Some [c]
        | "_"%char :: rest' => cons c <$> int_digits rest'
        | _ => cons c <$> int_digits rest
        end
      else None
  end.

(** [sys.int_info.default_max_str_digits]: the longest literal [int()]
    converts. *)
Definition int_max_str_digits : Z := 4300.

(** [int(s)] on a string: surrounding whitespace, an optional sign, at most
    [int_max_str_digits] digits. *)
Definition int (s : string) : result Z :=
  let cs := strip_with is_int_space (chars s) in
  let '(neg, body) :=
    match cs with
    | "-"%char :: r => (true, r)
    | "+"%char :: r => (false, r)
    | _ => (false, cs)
    end in
  match int_digits body with
  | Some ds =>
      if Z.of_nat (List.length ds) <=? int_max_str_digits
      then Ok (if neg then - digits_value ds else digits_value ds)
      else Raise ValueError
  | None => Raise ValueError
  end.

(** Two-digit, zero-padded rendering ([%H], [%M]) of a number below 100. *)
Definition two_digits (n : Z) : string :=
  (if n <? 10 then "0" else "") +:+ pretty n.

(** ** Calendar dates *)

Record date : Type := Date { year : Z; month : Z; day : Z }.

#[global] Instance date_eq_dec : EqDecision date.
Proof. solve_decision. Defined.

Definition is_leap (y : Z) : bool :=
  (y mod 4 =? 0) && (negb (y mod 100 =? 0) || (y mod 400 =? 0)).

Definition days_in_month (y m : Z) : Z :=
  if m =? 2 then (if is_leap y then 29 else 28)
  else if (m =? 4) || (m =? 6) || (m =? 9) || (m =? 11) then 30
  else 31.

(** The range check of the [date] constructor. *)
Definition valid_date (d : date) : bool :=
  (1 <=? year d) && (year d <=? 9999) &&
  (1 <=? month d) && (month d <=? 12) &&
  (1 <=? day d) && (day d <=? days_in_month (year d) (month d)).

(** Comparison of dates, as of the tuples (year, month, day). *)
Definition date_compare (a b : date) : comparison :=
  match year a ?= year b with
  | Eq => match month a ?= month b with
          | Eq => day a ?= day b
          | c => c
          end
  | c => c
  end.

Definition date_gt (a b : date) : bool :=
  match date_compare a b with Gt => true | _ => false end.
Definition date_eq (a b : date) : bool :=
  match date_compare a b with Eq => true | _ => false end.
Definition date_ge (a b : date) : bool :=
  match date_compare a b with Lt => false | _ => true end.
Definition date_lt (a b : date) : bool :=
  match date_compare a b with Lt => true | _ => false end.

(** [datetime.strptime(s, '%Y-%m-%d').date()].  The directive [%Y] takes four
    digits; [%m] takes [1[0-2]], [0[1-9]] or [[1-9]]; [%d] takes [3[01]],
    [[12]\d], [0[1-9]], [[1-9]] or a space and [[1-9]]; nothing may remain;
    the fields must then form a date. *)
Definition strptime_month (cs : list ascii) : option (Z * list ascii) :=
  match cs with
  | "1"%char :: c :: r =>
      if is_digit c && (digit_value c <=? 2) then Some (10 + digit_value c, r)
      else Some (1, c :: r)
  | "0"%char :: c :: r =>
      if is_digit c && (1 <=? digit_value c) then Some (digit_value c, r)
      else None
  | c :: r =>
      if is_digit c && (1 <=? digit_value c) then Some (digit_value c, r)
      else None
  | [] => None
  end.

Definition strptime_day (cs : list ascii) : option (Z * list ascii) :=
  let nonzero c := is_digit c && (1 <=? digit_value c) in
  match cs with
  | "3"%char :: c :: r =>
      if is_digit c && (digit_value c <=? 1) then Some (30 + digit_value c, r)
      else Some (3, c :: r)
  | "0"%char :: c :: r =>
      if nonzero c then Some (digit_value c, r) else None
  | " "%char :: c :: r =>
      if nonzero c then Some (digit_value c, r) else None
  | c :: d :: r =>
      if is_digit c && (1 <=? digit_value c) && (digit_value c <=? 2) && is_digit d
      then Some (10 * digit_value c + digit_value d, r)
      else if nonzero c then Some (digit_value c, d :: r) else None
  | [c] => if nonzero c then Some (digit_value c, []) else None
  | [] => None
  end.

Definition strptime (s : string) : result date :=
  match chars s with
  | y1 :: y2 :: y3 :: y4 :: "-"%char :: rest =>
      if forallb is_digit [y1; y2; y3; y4] then
        match strptime_month rest with
        | Some (m, "-"%char :: rest') =>
            match strptime_day rest' with
            | Some (d, []) =>
                let r := Date (digits_value [y1; y2; y3; y4]) m d in
                if valid_date r then Ok r else Raise ValueError
            | _ => Raise ValueError
            end
        | _ => Raise ValueError
        end
      else Raise ValueError
  | _ => Raise ValueError
  end.

(** ** Date-times *)

Record datetime : Type :=
  DateTime { dt_date : date; hour : Z; minute : Z; second : Z }.

(** The day after [d]; [OverflowError] past 9999-12-31 ([date.max]). *)
Definition next_day (d : date) : result date :=
  if day d <? days_in_month (year d) (month d)
  then Ok (Date (year d) (month d) (day d + 1))
  else if month d <? 12 then Ok (Date (year d) (month d + 1) 1)
  else if year d <? 9999 then Ok (Date (year d + 1) 1 1)
  else Raise OverflowError.

(** [t + timedelta(hours=h, minutes=m)] for a delta of less than a day. *)
Definition add_timedelta (t : datetime) (h m : Z) : result datetime :=
  let total := hour t * 60 + minute t + (h * 60 + m) in
  if total <? 1440
  then Ok (DateTime (dt_date t) (total / 60) (total mod 60) (second t))
  else d ← next_day (dt_date t);
       Ok (DateTime d ((total - 1440) / 60) ((total - 1440) mod 60) (second t)).

(** [t.strftime('%H:%M')]. *)
Definition strftime_HM (t : datetime) : string :=
  two_digits (hour t) +:+ ":" +:+ two_digits (minute t).

(** ** Dictionaries the repository hands out

    The values of the dictionaries built by [F1DataManager] are integers and
    strings. *)

Inductive pyval : Type :=
  | VInt (n : Z)
  | VStr (s : string).

#[global] Instance pyval_eq_dec : EqDecision pyval.
Proof. solve_decision. Defined.

Abbreviation dict := (gmap string pyval).

(** [f"{v}"]. *)
Definition format (v : pyval) : string :=
  match v with
  | VInt n => pretty n
  | VStr s => s
  end.

(** An argument that must be a [str] ([TypeError] otherwise). *)
Definition as_str (v : pyval) : result string :=
  match v with
  | VStr s => Ok s
  | VInt _ => Raise TypeError
  end.

(** [{k1: v1, ..., kn: vn}]. *)
Definition dict_of (kvs : list (string * pyval)) : dict :=
  fold_left (fun d kv => <[kv.1 := kv.2]> d) kvs ∅.

(** ** The remote payload (Ergast / Jolpica schema) *)

Module Remote.

Record Location : Type := { country : option string }.

Record Circuit : Type :=
  { circuitName : option string; Location_ : option Location }.

Record Race : Type :=
  { round : option string;
    raceName : option string;
    Circuit_ : option Circuit;
    date : option string;
    time : option string }.

Record Driver : Type :=
  { givenName : option string; familyName : option string }.

Record Constructor : Type := { name : option string }.

Record DriverStanding : Type :=
  { position : option string;
    points : option string;
    wins : option string;
    Driver_ : option Driver;
    Constructors : option (list Constructor) }.

Record ConstructorStanding : Type :=
  { c_position : option string;
    c_points : option string;
    c_wins : option string;
    Constructor_ : option Constructor }.

Record StandingsList : Type :=
  { DriverStandings : option (list DriverStanding);
    ConstructorStandings : option (list ConstructorStanding) }.

Record StandingsTable : Type :=
  { StandingsLists : option (list StandingsList) }.

Record RaceTable : Type := { Races : option (list Race) }.

Record MRData : Type :=
  { RaceTable_ : option RaceTable; StandingsTable_ : option StandingsTable }.

(** The parsed body of a response: an object that may hold ['MRData']. *)
Record Payload : Type := { MRData_ : option MRData }.

End Remote.

(** ** The world: object state, network and clock *)

(** The body of a response, as [response.json()] finds it. *)
Inductive Body : Type :=
  | JSON (data : Remote.Payload)
  | NotJSON       (* not a JSON text *)
  | TooDeep       (* JSON nested beyond the interpreter's recursion limit *)
  | HugeNumber.   (* JSON with an integer longer than [int()] converts *)

(** What [session.get] meets on the wire. *)
Record Response : Type := { status_code : Z; body : Body }.

Inductive http_outcome : Type :=
  | TimedOut
  | ConnectionFailed
  | Responded (r : Response).

(** Names imported from the [config] module. *)
Record Config : Type :=
  { JOLPICA_API_BASE : string;           (* Config.JOLPICA_API_BASE *)
    API_CACHE_TTL : Z;                   (* Config.API_CACHE_TTL *)
    get_current_season : Z;              (* Config.get_current_season() *)
    season_races : string → string;      (* api_endpoints.season_races *)
    RACE_SCHEDULE : list dict            (* fallback_data.RACE_SCHEDULE *) }.

(** The environment of a run: the clock, indexed by the number of readings
    made so far; the network, indexed by the number of requests sent so far;
    and the interpreter's [datetime.fromisoformat]. *)
Record Env : Type :=
  { clock_time : nat → Z;                (* time.time(), whole seconds *)
    clock_date : nat → date;             (* datetime.now().date() *)
    network : nat → string → http_outcome;
    fromisoformat : string → result datetime }.

(** The two objects of the program ([f1_data_manager] and the client it
    owns) and the trace of their effects. *)
Record World : Type :=
  { cache : gmap string Remote.Payload;  (* jolpica_client.cache *)
    completed_races : list dict;         (* self.completed_races *)
    race_schedule : option (list dict);  (* self.race_schedule, if ever set *)
    sent : list string;                  (* URLs requested, latest first *)
    ticks : nat                          (* clock readings made *) }.

Definition set_cache (f : gmap string Remote.Payload → gmap string Remote.Payload)
    (w : World) : World :=
  {| cache := f (cache w); completed_races := completed_races w;
     race_schedule := race_schedule w; sent := sent w; ticks := ticks w |}.

Definition set_completed_races (f : list dict → list dict) (w : World) : World :=
  {| cache := cache w; completed_races := f (completed_races w);
     race_schedule := race_schedule w; sent := sent w; ticks := ticks w |}.

Definition set_race_schedule (s : option (list dict)) (w : World) : World :=
  {| cache := cache w; completed_races := completed_races w;
     race_schedule := s; sent := sent w; ticks := ticks w |}.

Definition log_request (url : string) (w : World) : World :=
  {| cache := cache w; completed_races := completed_races w;
     race_schedule := race_schedule w; sent := url :: sent w; ticks := ticks w |}.

Definition tick (w : World) : World :=
  {| cache := cache w; completed_races := completed_races w;
     race_schedule := race_schedule w; sent := sent w; ticks := S (ticks w) |}.

(** Computations over the world; an exception keeps the world reached. *)
Definition M (A : Type) : Type := World → result A * World.

#[global] Instance M_ret : MRet M := fun A a w => (Ok a, w).
#[global] Instance M_bind : MBind M := fun A B f m w =>
  match m w with
  | (Ok a, w') => f a w'
  | (Raise e, w') => (Raise e, w')
  end.

Definition lift {A} (r : result A) : M A := fun w => (r, w).
Definition raise {A} (e : exn) : M A := fun w => (Raise e, w).
Definition get_world : M World := fun w => (Ok w, w).
Definition modify (f : World → World) : M unit := fun w => (Ok tt, f w).

(** [try: body / except <classes>: handler]. *)
Definition try_except {A} (body : M A) (catches : exn → bool) (handler : M A) : M A :=
  fun w =>
    match body w with
    | (Raise e, w') => if catches e then handler w' else (Raise e, w')
    | r => r
    end.

Definition Exception (e : exn) : bool := true.

(** ** class JolpicaAPIClient *)

Module JolpicaAPIClient.
Section methods.
Context (cfg : Config) (env : Env).

(** [time.time()]. *)
Definition time_time : M Z :=
  fun w => (Ok (clock_time env (ticks w)), tick w).

(** [int(t / self.cache_ttl)]: the quotient truncated towards zero. *)
Definition time_bucket (t : Z) : result Z :=
  if API_CACHE_TTL cfg =? 0 then Raise ZeroDivisionError
  else Ok (Z.quot t (API_CACHE_TTL cfg)).

Definition _get_cache_key (endpoint : string) : M string :=
  t ← time_time;
  b ← lift (time_bucket t);
  mret (endpoint +:+ "_" +:+ pretty b).

(** [self.session.get(url, timeout=...)]. *)
Definition session_get (url : string) : M Response :=
  fun w =>
    let w' := log_request url w in
    match network env (List.length (sent w)) url with
    | TimedOut => (Raise Timeout, w')
    | ConnectionFailed => (Raise ConnectionError, w')
    | Responded r => (Ok r, w')
    end.

(** [response.raise_for_status()]: raises on 4xx and 5xx. *)
Definition raise_for_status (r : Response) : result unit :=
  if (400 <=? status_code r) && (status_code r <? 600)
  then Raise HTTPError else Ok tt.

(** [response.json()].  The decoder raises [JSONDecodeError] on a text that
    is not JSON, [RecursionError] where the nesting of the text exhausts the
    interpreter's stack, and the [ValueError] of [int()] on an integer of
    more than [int_max_str_digits] digits. *)
Definition json (r : Response) : result Remote.Payload :=
  match body r with
  | JSON data => Ok data
  | NotJSON => Raise JSONDecodeError
  | TooDeep => Raise RecursionError
  | HugeNumber => Raise ValueError
  end.

Definition request_url (endpoint : string) : string :=
  if isdigit endpoint || String.eqb endpoint "current"
  then season_races cfg endpoint
  else JOLPICA_API_BASE cfg +:+ "/" +:+ endpoint +:+ ".json".

(** Returns [Some data] for a payload and [None] for Python's [None]. *)
Definition _make_request (endpoint : string) : M (option Remote.Payload) :=
  cache_key ← _get_cache_key endpoint;
  w ← get_world;
  match cache w !! cache_key with
  | Some data => mret (Some data)
  | None =>
      try_except
        (let url := request_url endpoint in
         response ← session_get url;
         _ ← lift (raise_for_status response);
         data ← lift (json response);
         _ ← modify (set_cache <[cache_key := data]>);
         mret (Some data))
        is_RequestException
        (mret None)
  end.

(** [data['MRData']['RaceTable']['Races']]. *)
Definition races_of (mr : Remote.MRData) : result (list Remote.Race) :=
  table ← getitem (Remote.RaceTable_ mr);
  getitem (Remote.Races table).

Definition get_current_season_races : M (list Remote.Race) :=
  let current_year := get_current_season cfg in
  data ← _make_request (pretty current_year);
  found ← lift
    match data ≫= Remote.MRData_ with
    | Some mr =>
        races ← races_of mr;
        Ok (match races with [] => None | _ => Some races end)
    | None => Ok None
    end;
  match found with
  | Some races => mret races
  | None =>
      data ← _make_request "current";
      match data ≫= Remote.MRData_ with
      | Some mr => lift (races_of mr)
      | None => mret []
      end
  end.

(** [data['MRData']['StandingsTable']['StandingsLists']]. *)
Definition standings_lists_of (mr : Remote.MRData)
    : result (list Remote.StandingsList) :=
  table ← getitem (Remote.StandingsTable_ mr);
  getitem (Remote.StandingsLists table).

Definition get_driver_standings : M (list Remote.DriverStanding) :=
  data ← _make_request ("current" +:+ "/driverStandings");
  match data ≫= Remote.MRData_ with
  | Some mr =>
      standings_list ← lift (standings_lists_of mr);
      match standings_list with
      | first :: _ => lift (getitem (Remote.DriverStandings first))
      | [] => mret []
      end
  | None => mret []
  end.

Definition get_constructor_standings : M (list Remote.ConstructorStanding) :=
  data ← _make_request ("current" +:+ "/constructorStandings");
  match data ≫= Remote.MRData_ with
  | Some mr =>
      standings_list ← lift (standings_lists_of mr);
      match standings_list with
      | first :: _ => lift (getitem (Remote.ConstructorStandings first))
      | [] => mret []
      end
  | None => mret []
  end.

End methods.
End JolpicaAPIClient.

(** ** class F1DataManager *)

(** The result set of [get_latest_race_results]. *)
Record RaceResults : Type :=
  { rs_race_name : string; rs_circuit : string; rs_date : string;
    rs_results : list dict }.

Module F1DataManager.
Section methods.
Context (cfg : Config) (env : Env).

(** The state [__init__] leaves: an empty client cache, no completed race,
    and no attribute [race_schedule]. *)
Definition __init__ : World :=
  {| cache := ∅; completed_races := []; race_schedule := None;
     sent := []; ticks := 0 |}.

(** [self.driver_standings], as last assigned by [__init__]. *)
Definition driver_standings : list dict :=
  [ dict_of [("position", VInt 1); ("driver", VStr "Max Verstappen");
             ("team", VStr "Red Bull Racing"); ("points", VInt 408);
             ("wins", VInt 8); ("podiums", VInt 15)];
    dict_of [("position", VInt 2); ("driver", VStr "Lando Norris");
             ("team", VStr "McLaren"); ("points", VInt 371);
             ("wins", VInt 4); ("podiums", VInt 12)];
    dict_of [("position", VInt 3); ("driver", VStr "Charles Leclerc");
             ("team", VStr "Ferrari"); ("points", VInt 356);
             ("wins", VInt 3); ("podiums", VInt 11)] ].

(** [self.constructor_standings], as last assigned by [__init__]. *)
Definition constructor_standings : list dict :=
  [ dict_of [("position", VInt 1); ("team", VStr "Red Bull Racing");
             ("points", VInt 589); ("wins", VInt 8)];
    dict_of [("position", VInt 2); ("team", VStr "McLaren");
             ("points", VInt 544); ("wins", VInt 4)];
    dict_of [("position", VInt 3); ("team", VStr "Ferrari");
             ("points", VInt 537); ("wins", VInt 5)] ].

(** [self.fallback_data["next_race"]]. *)
Definition fallback_next_race : dict :=
  match RACE_SCHEDULE cfg with
  | first :: _ => first
  | [] =>
      dict_of [("name", VStr "Next Race"); ("circuit", VStr "TBD");
               ("country", VStr "TBD"); ("date", VStr "2025-12-31");
               ("race_time_ist", VStr "17:00"); ("status", VStr "upcoming")]
  end.

(** [datetime.now().date()]. *)
Definition now_date : M date :=
  fun w => (Ok (clock_date env (ticks w)), tick w).

Definition _convert_to_ist (utc_time : string) : string :=
  let utc_time :=
    if contains "Z" utc_time then replace "Z" "+00:00" utc_time else utc_time in
  match
    time_obj ← fromisoformat env (replace "Z" "+00:00" utc_time);
    ist_time ← add_timedelta time_obj 5 30;
    Ok (strftime_HM ist_time)
  with
  | Ok s => s
  | Raise _ => "17:00"
  end.

(** The three-way test of [_determine_race_status]. *)
Definition race_status (race_date_obj current_date : date) : string :=
  if date_gt race_date_obj current_date then "upcoming"
  else if date_eq race_date_obj current_date then "live"
  else "completed".

(** [race_date] is any value: [strptime] wants a [str]. *)
Definition _determine_race_status (race_date : pyval) : M string :=
  current_date ← now_date;
  race_date_obj ← lift (as_str race_date ≫= strptime);
  mret (race_status race_date_obj current_date).

(** The first definition of [_get_fallback_schedule] in the class body.
    The second definition, below, rebinds the name: this one is never
    called. *)
Fixpoint _get_fallback_schedule_shadowed_loop
    (races schedule : list dict) : M (list dict) :=
  match races with
  | [] => mret schedule
  | race :: rest =>
      let race_with_status := race in
      let race_with_status :=
        <["race_time_ist" :=
            default (VStr "17:00") (race_with_status !! "race_time_ist")]>
          race_with_status in
      date ← lift (getitem (race !! "date"));
      status ← _determine_race_status date;
      let race_with_status := <["status" := VStr status]> race_with_status in
      _get_fallback_schedule_shadowed_loop rest (schedule ++ [race_with_status])
  end.

Definition _get_fallback_schedule_shadowed : M (list dict) :=
  _get_fallback_schedule_shadowed_loop (RACE_SCHEDULE cfg) [].

(** The second definition of [_get_fallback_schedule], the one in force. *)
Definition fallback_race (round : Z) (name circuit country date time ist : string)
    : dict :=
  dict_of [("round", VInt round); ("name", VStr name); ("circuit", VStr circuit);
           ("country", VStr country); ("date", VStr date); ("time", VStr time);
           ("race_time_ist", VStr ist); ("status", VStr "upcoming")].

Definition _get_fallback_schedule : list dict :=
  [ fallback_race 17 "Qatar Airways Azerbaijan Grand Prix" "Baku City Circuit"
      "Azerbaijan" "2025-09-21" "17:00" "17:00";
    fallback_race 18 "Singapore Grand Prix" "Marina Bay Street Circuit"
      "Singapore" "2025-10-05" "12:00" "17:30";
    fallback_race 19 "United States Grand Prix" "Circuit of the Americas"
      "United States" "2025-10-20" "19:00" "04:30";
    fallback_race 20 "Mexican Grand Prix" "Autodromo Hermanos Rodriguez"
      "Mexico" "2025-10-27" "20:00" "06:30";
    fallback_race 21 "São Paulo Grand Prix" "Autodromo Jose Carlos Pace"
      "Brazil" "2025-11-03" "18:00" "04:30";
    fallback_race 22 "Las Vegas Grand Prix" "Las Vegas Street Circuit"
      "United States" "2025-11-23" "06:00" "16:30" ].

(** One turn of the loop of [get_live_race_schedule]: [Some] of the
    processed race when its date is not before [current_date]. *)
Definition process_race (current_date : date) (race : Remote.Race)
    : M (option dict) :=
  date ← lift (getitem (Remote.date race));
  race_date_obj ← lift (strptime date);
  if date_ge race_date_obj current_date then
    round ← lift (getitem (Remote.round race) ≫= int);
    name ← lift (getitem (Remote.raceName race));
    circuit ← lift (getitem (Remote.Circuit_ race));
    circuit_name ← lift (getitem (Remote.circuitName circuit));
    location ← lift (getitem (Remote.Location_ circuit));
    country ← lift (getitem (Remote.country location));
    let time := default "12:00:00" (Remote.time race) in
    status ← _determine_race_status (VStr date);
    mret (Some (dict_of
      [("round", VInt round); ("name", VStr name);
       ("circuit", VStr circuit_name); ("country", VStr country);
       ("date", VStr date); ("time", VStr time);
       ("race_time_ist", VStr (_convert_to_ist time));
       ("status", VStr status)]))
  else mret None.

Fixpoint process_races (current_date : date) (races : list Remote.Race)
    (processed_races : list dict) : M (list dict) :=
  match races with
  | [] => mret processed_races
  | race :: rest =>
      processed_race ← process_race current_date race;
      process_races current_date rest
        (match processed_race with
         | Some r => processed_races ++ [r]
         | None => processed_races
         end)
  end.

Definition get_live_race_schedule : M (list dict) :=
  try_except
    (races ← JolpicaAPIClient.get_current_season_races cfg env;
     current_date ← now_date;
     processed_races ← process_races current_date races [];
     match processed_races with
     | [] => mret _get_fallback_schedule
     | _ => mret processed_races
     end)
    Exception
    (mret _get_fallback_schedule).

(** The body of [get_next_race] once [upcoming_races] is known. *)
Definition next_race_of (upcoming_races : list dict) : result dict :=
  match upcoming_races with
  | next_race :: _ =>
      match next_race !! "location" with
      | Some _ => Ok next_race
      | None =>
          circuit ← getitem (next_race !! "circuit");
          country ← getitem (next_race !! "country");
          Ok (<["location" := VStr (format circuit +:+ ", " +:+ format country)]>
                next_race)
      end
  | [] => Ok fallback_next_race
  end.

Definition get_next_race : M dict :=
  try_except
    (upcoming_races ← get_live_race_schedule;
     lift (next_race_of upcoming_races))
    Exception
    (mret fallback_next_race).

Definition get_race_schedule : M (list dict) :=
  try_except get_live_race_schedule Exception (mret _get_fallback_schedule).

Definition process_constructor_standing (standing : Remote.ConstructorStanding)
    : result dict :=
  constructor ← getitem (Remote.Constructor_ standing);
  position ← getitem (Remote.c_position standing) ≫= int;
  team ← getitem (Remote.name constructor);
  points ← getitem (Remote.c_points standing) ≫= int;
  wins ← getitem (Remote.c_wins standing) ≫= int;
  Ok (dict_of [("position", VInt position); ("team", VStr team);
               ("points", VInt points); ("wins", VInt wins)]).

Fixpoint process_standings {A} (process : A → result dict)
    (standings : list A) (processed_standings : list dict) : result (list dict) :=
  match standings with
  | [] => Ok processed_standings
  | standing :: rest =>
      d ← process standing;
      process_standings process rest (processed_standings ++ [d])
  end.

Definition get_constructor_standings : M (list dict) :=
  try_except
    (standings ← JolpicaAPIClient.get_constructor_standings cfg env;
     match standings with
     | [] => mret constructor_standings
     | _ => lift (process_standings process_constructor_standing standings [])
     end)
    Exception
    (mret constructor_standings).

(** [f"{driver.get('givenName', '')} {driver.get('familyName', '')}".strip()]. *)
Definition full_name_of (driver : Remote.Driver) : string :=
  strip (default "" (Remote.givenName driver) +:+ " " +:+
         default "" (Remote.familyName driver)).

Definition process_driver_standing (standing : Remote.DriverStanding)
    : result dict :=
  driver ← getitem (Remote.Driver_ standing);
  constructors ← getitem (Remote.Constructors standing);
  let team :=
    match constructors with
    | constructor :: _ => default "Unknown" (Remote.name constructor)
    | [] => "Unknown"
    end in
  let full_name := full_name_of driver in
  position ← getitem (Remote.position standing) ≫= int;
  points ← getitem (Remote.points standing) ≫= int;
  wins ← getitem (Remote.wins standing) ≫= int;
  Ok (dict_of [("position", VInt position); ("driver", VStr full_name);
               ("team", VStr team); ("points", VInt points);
               ("wins", VInt wins)]).

Definition get_driver_standings : M (list dict) :=
  try_except
    (standings ← JolpicaAPIClient.get_driver_standings cfg env;
     match standings with
     | [] => mret driver_standings
     | _ => lift (process_standings process_driver_standing standings [])
     end)
    Exception
    (mret driver_standings).

Definition _get_fallback_race_results : RaceResults :=
  {| rs_race_name := "Italian Grand Prix";
     rs_circuit := "Monza";
     rs_date := "2025-09-01";
     rs_results :=
       [ dict_of [("position", VInt 1); ("driver", VStr "Max Verstappen");
                  ("team", VStr "Red Bull Racing"); ("time", VStr "1:32:11.000")];
         dict_of [("position", VInt 2); ("driver", VStr "Charles Leclerc");
                  ("team", VStr "Ferrari"); ("time", VStr "+4.200s")];
         dict_of [("position", VInt 3); ("driver", VStr "Lando Norris");
                  ("team", VStr "McLaren"); ("time", VStr "+7.581s")];
         dict_of [("position", VInt 4); ("driver", VStr "Lewis Hamilton");
                  ("team", VStr "Ferrari"); ("time", VStr "+12.341s")];
         dict_of [("position", VInt 5); ("driver", VStr "Fernando Alonso");
                  ("team", VStr "Aston Martin"); ("time", VStr "+18.902s")];
         dict_of [("position", VInt 6); ("driver", VStr "Oscar Piastri");
                  ("team", VStr "McLaren"); ("time", VStr "+21.445s")] ] |}.

Definition get_latest_race_results : M RaceResults :=
  try_except (mret _get_fallback_race_results) Exception
    (mret _get_fallback_race_results).

(** The loop of [mark_race_completed] over a schedule: the schedule after
    the loop and the race appended to [completed_races], if any. *)
Fixpoint mark_loop (race_round : pyval) (schedule : list dict)
    : result (list dict * option dict) :=
  match schedule with
  | [] => Ok ([], None)
  | race :: rest =>
      round ← getitem (race !! "round");
      if decide (round = race_round) then
        let race := <["status" := VStr "completed"]> race in
        Ok (race :: rest, Some race)
      else
        '(rest', hit) ← mark_loop race_round rest;
        Ok (race :: rest', hit)
  end.

Definition mark_race_completed (race_round : pyval) : M unit :=
  w ← get_world;
  match race_schedule w with
  | None => raise AttributeError
  | Some schedule =>
      '(schedule', hit) ← lift (mark_loop race_round schedule);
      _ ← modify (set_race_schedule (Some schedule'));
      match hit with
      | Some race => modify (set_completed_races (λ l : list dict, (l ++ [race])%list))
      | None => mret tt
      end
  end.

End methods.
End F1DataManager.

Arguments JolpicaAPIClient._make_request : simpl never.
Arguments JolpicaAPIClient.get_current_season_races : simpl never.
Arguments JolpicaAPIClient.get_driver_standings : simpl never.
Arguments JolpicaAPIClient.get_constructor_standings : simpl never.
Arguments F1DataManager._convert_to_ist : simpl never.
Arguments F1DataManager._determine_race_status : simpl never.
Arguments F1DataManager.get_live_race_schedule : simpl never.
Arguments F1DataManager._get_fallback_schedule : simpl never.
Arguments F1DataManager.driver_standings : simpl never.
Arguments F1DataManager.constructor_standings : simpl never.

(** ** A reference [datetime.fromisoformat]

    The format [datetime.isoformat()] emits, which every interpreter that
    has [fromisoformat] reads:
    [YYYY-MM-DD[*HH[:MM[:SS[.fff[fff]]]][+HH:MM[:SS[.ffffff]]]]].
    The properties below do not depend on it: they hold of any [Env]; it
    gives the environments at which they are exercised. *)

(** Exactly [n] digits, then the rest. *)
Fixpoint take_digits (n : nat) (cs : list ascii) : option (list ascii * list ascii) :=
  match n with
  | O => Some ([], cs)
  | S n' =>
      match cs with
      | c :: rest =>
          if is_digit c
          then '(ds, rest') ← take_digits n' rest; Some (c :: ds, rest')
          else None
      | [] => None
      end
  end.

Definition number (n : nat) (cs : list ascii) : option (Z * list ascii) :=
  '(ds, rest) ← take_digits n cs; Some (digits_value ds, rest).

(** The first four characters are digits: the year every ISO date opens with. *)
Definition has_year (s : string) : bool :=
  match take_digits 4 (chars s) with Some _ => true | None => false end.

(** [HH[:MM[:SS[.fff[fff]]]]], to the end of [cs]. *)
Definition iso_clock (cs : list ascii) : option (Z * Z * Z) :=
  '(h, r) ← number 2 cs;
  match r with
  | [] => Some (h, 0, 0)
  | ":"%char :: r =>
      '(m, r) ← number 2 r;
      match r with
      | [] => Some (h, m, 0)
      | ":"%char :: r =>
          '(s, r) ← number 2 r;
          match r with
          | [] => Some (h, m, s)
          | "."%char :: f =>
              if forallb is_digit f &&
                 ((List.length f =? 3)%nat || (List.length f =? 6)%nat)
              then Some (h, m, s) else None
          | _ => None
          end
      | _ => None
      end
  | _ => None
  end.

(** Splits a time at its UTC offset, if it has one. *)
Fixpoint split_offset (cs : list ascii) : list ascii * option (list ascii) :=
  match cs with
  | [] => ([], None)
  | c :: rest =>
      if Ascii.eqb c "+" || Ascii.eqb c "-" then ([], Some rest)
      else let '(t, off) := split_offset rest in (c :: t, off)
  end.

Definition iso_time (cs : list ascii) : option (Z * Z * Z) :=
  let '(t, off) := split_offset cs in
  '(h, m, s) ← iso_clock t;
  if (h <? 24) && (m <? 60) && (s <? 60) then
    match off with
    | None => Some (h, m, s)
    | Some o =>
        '(oh, om, os) ← iso_clock o;
        if (5 <=? List.length o)%nat && (oh * 3600 + om * 60 + os <? 86400)
        then Some (h, m, s) else None
    end
  else None.

Definition fromisoformat_ref (s : string) : result datetime :=
  let parsed :=
    '(y, r) ← number 4 (chars s);
    match r with
    | "-"%char :: r =>
        '(m, r) ← number 2 r;
        match r with
        | "-"%char :: r =>
            '(d, r) ← number 2 r;
            if valid_date (Date y m d) then
              match r with
              | [] => Some (DateTime (Date y m d) 0 0 0)
              | _ :: t =>
                  '(h, mi, se) ← iso_time t;
                  Some (DateTime (Date y m d) h mi se)
              end
            else None
        | _ => None
        end
    | _ => None
    end in
  match parsed with
  | Some t => Ok t
  | None => Raise ValueError
  end.

(** ** Environments for the examples *)

Definition example_config : Config :=
  {| JOLPICA_API_BASE := "https://api.jolpi.ca/ergast/f1";
     API_CACHE_TTL := 300;
     get_current_season := 2025;
     season_races := λ season,
       "https://api.jolpi.ca/ergast/f1/" +:+ season +:+ "/races.json";
     RACE_SCHEDULE := [] |}.

(** An environment with a frozen clock and the given network. *)
Definition example_env (now : Z) (today : date)
    (net : nat → string → http_outcome) : Env :=
  {| clock_time := λ _, now;
     clock_date := λ _, today;
     network := net;
     fromisoformat := fromisoformat_ref |}.

Definition network_down : nat → string → http_outcome := λ _ _, TimedOut.

(** * Properties *)

(** ** Order of dates *)

(** [later a b]: [a] falls on a later day of the calendar than [b]. *)
Definition later (a b : date) : Prop :=
  year b < year a ∨
  (year a = year b ∧
   (month b < month a ∨ (month a = month b ∧ day b < day a))).

Lemma date_compare_Gt a b : date_compare a b = Gt ↔ later a b.
Proof.
  unfold date_compare, later.
  destruct (Z.compare_spec (year a) (year b));
    destruct (Z.compare_spec (month a) (month b));
    destruct (Z.compare_spec (day a) (day b));
    split; intros; try discriminate; try lia; auto.
Qed.

Lemma date_compare_Eq a b : date_compare a b = Eq ↔ a = b.
Proof.
  unfold date_compare. destruct a as [ya ma da], b as [yb mb db]; simpl.
  destruct (Z.compare_spec ya yb);
    destruct (Z.compare_spec ma mb);
    destruct (Z.compare_spec da db);
    split; intros E; try discriminate; try (inversion E; lia); subst; auto.
Qed.

Lemma date_compare_Lt a b : date_compare a b = Lt ↔ later b a.
Proof.
  unfold date_compare, later.
  destruct (Z.compare_spec (year a) (year b));
    destruct (Z.compare_spec (month a) (month b));
    destruct (Z.compare_spec (day a) (day b));
    split; intros; try discriminate; try lia; auto.
Qed.

Lemma date_gt_later a b : date_gt a b = true ↔ later a b.
Proof.
  rewrite <- date_compare_Gt. unfold date_gt.
  destruct (date_compare a b); split; congruence.
Qed.

Lemma date_ge_spec a b : date_ge a b = true ↔ ¬ later b a.
Proof.
  rewrite <- date_compare_Lt. unfold date_ge.
  destruct (date_compare a b); split; congruence.
Qed.

Lemma date_lt_later a b : date_lt a b = true ↔ later b a.
Proof.
  rewrite <- date_compare_Lt. unfold date_lt.
  destruct (date_compare a b); split; congruence.
Qed.

(** ** Every calendar date has a string [strptime] reads *)
(** The ISO rendering of a date, [d.isoformat()]: YYYY-MM-DD. *)
Definition digit_char (n : Z) : ascii := ascii_of_nat (Z.to_nat (48 + n)).

Definition isoformat (d : date) : string :=
  str [digit_char (year d / 1000); digit_char (year d / 100 mod 10);
       digit_char (year d / 10 mod 10); digit_char (year d mod 10); "-"%char;
       digit_char (month d / 10); digit_char (month d mod 10); "-"%char;
       digit_char (day d / 10); digit_char (day d mod 10)].

Lemma digit_char_spec n :
  0 ≤ n ≤ 9 → is_digit (digit_char n) = true ∧ digit_value (digit_char n) = n.
Proof.
  intros H.
  assert (n = 0 ∨ n = 1 ∨ n = 2 ∨ n = 3 ∨ n = 4 ∨ n = 5 ∨ n = 6 ∨ n = 7
          ∨ n = 8 ∨ n = 9) as Hn by lia.
  repeat destruct Hn as [->|Hn]; try subst n; by vm_compute.
Qed.

Lemma strptime_month_isoformat m rest :
  1 ≤ m ≤ 12 →
  strptime_month (digit_char (m / 10) :: digit_char (m mod 10) :: rest)
  = Some (m, rest).
Proof.
  intros H.
  assert (m = 1 ∨ m = 2 ∨ m = 3 ∨ m = 4 ∨ m = 5 ∨ m = 6 ∨ m = 7 ∨ m = 8
          ∨ m = 9 ∨ m = 10 ∨ m = 11 ∨ m = 12) as Hm by lia.
  repeat destruct Hm as [->|Hm]; try subst m; reflexivity.
Qed.

Lemma strptime_day_isoformat d :
  1 ≤ d ≤ 31 →
  strptime_day [digit_char (d / 10); digit_char (d mod 10)] = Some (d, []).
Proof.
  intros H.
  assert (Z.to_nat d ∈ seq 1 31) as Hd by (apply elem_of_seq; lia).
  rewrite <- (Z2Nat.id d) by lia.
  revert Hd. generalize (Z.to_nat d). intros n Hn.
  cbv [seq] in Hn.
  repeat (apply elem_of_cons in Hn as [->|Hn]; [reflexivity|]).
  by apply elem_of_nil in Hn.
Qed.

Lemma strptime_isoformat d :
  valid_date d = true → strptime (isoformat d) = Ok d.
Proof.
  destruct d as [y m dd]. unfold valid_date. simpl. intros H.
  repeat (apply andb_prop in H as [H ?]).
  assert (1 ≤ y ≤ 9999 ∧ 1 ≤ m ≤ 12 ∧ 1 ≤ dd) as (Hy & Hm & Hd) by lia.
  assert (dd ≤ 31) as Hd'.
  { assert (days_in_month y m ≤ 31); [|lia]. unfold days_in_month.
    repeat case_match; lia. }
  destruct (digit_char_spec (y / 1000)) as [D1 V1];
    [Z.div_mod_to_equations; lia|].
  destruct (digit_char_spec (y / 100 mod 10)) as [D2 V2];
    [Z.div_mod_to_equations; lia|].
  destruct (digit_char_spec (y / 10 mod 10)) as [D3 V3];
    [Z.div_mod_to_equations; lia|].
  destruct (digit_char_spec (y mod 10)) as [D4 V4];
    [Z.div_mod_to_equations; lia|].
  unfold strptime, isoformat, chars, str.
  rewrite list_ascii_of_string_of_list_ascii.
  cbn [year month day forallb]. rewrite D1, D2, D3, D4. cbn [andb].
  rewrite strptime_month_isoformat by done.
  rewrite strptime_day_isoformat by lia.
  assert (digits_value
            [digit_char (y / 1000); digit_char (y / 100 mod 10);
             digit_char (y / 10 mod 10); digit_char (y mod 10)] = y) as ->.
  { unfold digits_value. cbn [fold_left]. rewrite V1, V2, V3, V4.
    Z.div_mod_to_equations. lia. }
  unfold valid_date. cbn [year month day].
  replace (_ && _) with true; [done|].
  symmetry. repeat (apply andb_true_intro; split); lia.
Qed.

(** ** The status classifier *)

Section status.
Context (env : Env).
Import F1DataManager.

Lemma race_status_cases d today :
  (later d today ∧ race_status d today = "upcoming") ∨
  (d = today ∧ race_status d today = "live") ∨
  (later today d ∧ race_status d today = "completed").
Proof.
  unfold race_status, date_gt, date_eq.
  destruct (date_compare d today) eqn:E.
  - right; left. by apply date_compare_Eq in E.
  - right; right. by apply date_compare_Lt in E.
  - left. by apply date_compare_Gt in E.
Qed.

Lemma later_irrefl d : ¬ later d d.
Proof. unfold later. lia. Qed.

Lemma later_asym a b : later a b → ¬ later b a.
Proof. unfold later. lia. Qed.

(** C7.  On a race date that [strptime] reads as the day [d], the
    classifier returns, with no other effect than its one reading of the
    clock, a value fixed by [d] and the day [today] the clock shows: it is
    one of "upcoming", "live" and "completed", and it is "upcoming" exactly
    when [d] is after [today], "live" exactly when [d] is [today], and
    "completed" exactly when [d] is before [today].  Every calendar date is
    read by [strptime] from its ISO rendering, so every pair of dates is
    classified. *)
Theorem determine_race_status_classifies (race_date : string) (d : date) (w : World) :
  strptime race_date = Ok d →
  let today := clock_date env (ticks w) in
  _determine_race_status env (VStr race_date) w = (Ok (race_status d today), tick w)
  ∧ (∀ d', valid_date d' = true → strptime (isoformat d') = Ok d')
  ∧ race_status d today ∈ ["upcoming"; "live"; "completed"]
  ∧ (race_status d today = "upcoming" ↔ later d today)
  ∧ (race_status d today = "live" ↔ d = today)
  ∧ (race_status d today = "completed" ↔ later today d).
Proof.
  intros Hparse today. split; [|split; [exact strptime_isoformat|]].
  - unfold _determine_race_status, now_date, lift, mbind, M_bind, mret, M_ret.
    simpl. by rewrite Hparse.
  - destruct (race_status_cases d today) as [[H E]|[[H E]|[H E]]]; rewrite E.
    + repeat split; try set_solver; try done.
      * intros ->. by apply later_irrefl in H.
      * intros H'. by apply later_asym in H.
    + subst d. repeat split; try set_solver; try done.
      * intros H'. by apply later_irrefl in H'.
      * intros H'. by apply later_irrefl in H'.
    + repeat split; try set_solver; try done.
      * intros H'. by apply later_asym in H.
      * intros ->. by apply later_irrefl in H.
Qed.

End status.

Lemma determine_race_status_classifies_witness :
  strptime "2025-09-21" = Ok (Date 2025 9 21) ∧
  F1DataManager._determine_race_status
    (example_env 0 (Date 2025 9 22) network_down) (VStr "2025-09-21")
    F1DataManager.__init__
  = (Ok "completed", tick F1DataManager.__init__).
Proof.
  split; [reflexivity|].
  apply (determine_race_status_classifies
           (example_env 0 (Date 2025 9 22) network_down)
           "2025-09-21" (Date 2025 9 21) F1DataManager.__init__).
  reflexivity.
Defined.

(** ** The time conversion *)

(** Replacing "Z" by "+00:00" never makes a string open with a year. *)
Lemma take_digits_replace_Z n cs :
  take_digits (S n) cs = None →
  take_digits (S n)
    (flat_map (λ x, if Ascii.eqb x "Z" then chars "+00:00" else [x]) cs) = None.
Proof.
  revert n. induction cs as [|x cs IH]; intros n H; [done|].
  cbn [flat_map]. destruct (Ascii.eqb_spec x "Z") as [->|_]; [done|].
  cbn [app take_digits] in H |- *.
  destruct (is_digit x); [|done].
  destruct n as [|n]; [discriminate|].
  rewrite IH; [done|].
  by destruct (take_digits (S n) cs) as [[??]|].
Qed.

Lemma has_year_replace_Z s :
  has_year s = false → has_year (replace "Z" "+00:00" s) = false.
Proof.
  unfold has_year, replace, str, chars.
  rewrite list_ascii_of_string_of_list_ascii.
  destruct (take_digits 4 (list_ascii_of_string s)) eqn:E; [done|].
  intros _. by rewrite take_digits_replace_Z.
Qed.

Lemma fromisoformat_ref_has_year s t :
  fromisoformat_ref s = Ok t → has_year s = true.
Proof.
  unfold fromisoformat_ref, has_year, number.
  by destruct (take_digits 4 (chars s)) as [[??]|].
Qed.

Section convert_to_ist.
Context (env : Env).
Import F1DataManager.

(** The one fact used of the interpreter: [datetime.fromisoformat] reads
    a date first, so it rejects a string that does not open with the four
    digits of a year. *)
Hypothesis fromisoformat_reads_a_date :
  ∀ s t, fromisoformat env s = Ok t → has_year s = true.

Lemma fromisoformat_no_year s :
  has_year s = false → ∃ e, fromisoformat env s = Raise e.
Proof.
  intros H. destruct (fromisoformat env s) as [t|e] eqn:E; [|by eexists].
  apply fromisoformat_reads_a_date in E. congruence.
Qed.

Lemma convert_to_ist_no_year utc_time :
  has_year utc_time = false → _convert_to_ist env utc_time = "17:00".
Proof.
  intros H. unfold _convert_to_ist.
  assert (has_year (replace "Z" "+00:00"
            (if contains "Z" utc_time
             then replace "Z" "+00:00" utc_time else utc_time)) = false) as H'.
  { apply has_year_replace_Z. destruct (contains _ _); [|done].
    by apply has_year_replace_Z. }
  destruct (fromisoformat_no_year _ H') as [e ->]. done.
Qed.

(** C3.  [_convert_to_ist] hands its argument to [datetime.fromisoformat],
    which reads a date and a time, not a time of day: on "14:00:00Z" the
    conversion raises, the bare [except] catches it, and the result is the
    default "17:00", not "19:30".  The same holds of "garbage" and of every
    string that does not open with a year. *)
Theorem convert_to_ist_time_of_day :
  _convert_to_ist env "14:00:00Z" = "17:00"
  ∧ _convert_to_ist env "garbage" = "17:00"
  ∧ ∀ utc_time, has_year utc_time = false → _convert_to_ist env utc_time = "17:00".
Proof.
  split; [|split].
  - by apply convert_to_ist_no_year.
  - by apply convert_to_ist_no_year.
  - apply convert_to_ist_no_year.
Qed.

End convert_to_ist.

Lemma convert_to_ist_time_of_day_witness :
  (∀ s t, fromisoformat_ref s = Ok t → has_year s = true) ∧
  F1DataManager._convert_to_ist (example_env 0 (Date 2025 9 22) network_down)
    "14:00:00Z" = "17:00".
Proof.
  split; [exact fromisoformat_ref_has_year|].
  exact (proj1 (convert_to_ist_time_of_day
                  (example_env 0 (Date 2025 9 22) network_down)
                  fromisoformat_ref_has_year)).
Defined.

(** The offset is added when the argument carries a date. *)
Example convert_to_ist_of_timestamp :
  F1DataManager._convert_to_ist (example_env 0 (Date 2025 9 22) network_down)
    "2025-09-21T14:00:00Z" = "19:30".
Proof. reflexivity. Qed.

(** ** Reasoning about computations over the world *)

Ltac unfold_M :=
  unfold mbind, M_bind, mret, M_ret, lift, raise, get_world, modify,
    try_except, Exception in *.

(** [stable f m]: running [m] leaves the observation [f] of the world as
    it was, whether [m] returns or raises. *)
Definition stable {A B} (f : World → B) (m : M A) : Prop :=
  ∀ w, f (m w).2 = f w.

Section stable.
Context {B : Type} (f : World → B).

Lemma stable_ret {A} (a : A) : stable f (mret a).
Proof. by intros w. Qed.

Lemma stable_lift {A} (r : result A) : stable f (lift r).
Proof. by intros w. Qed.

Lemma stable_raise {A} (e : exn) : stable f (@raise A e).
Proof. by intros w. Qed.

Lemma stable_get_world : stable f get_world.
Proof. by intros w. Qed.

Lemma stable_bind {A C} (m : M A) (k : A → M C) :
  stable f m → (∀ a, stable f (k a)) → stable f (m ≫= k).
Proof.
  intros Hm Hk w. unfold_M. specialize (Hm w).
  destruct (m w) as [[a|e] w']; simpl in *; [|done].
  by rewrite (Hk a w').
Qed.

Lemma stable_try_except {A} (m h : M A) (c : exn → bool) :
  stable f m → stable f h → stable f (try_except m c h).
Proof.
  intros Hm Hh w. unfold_M. specialize (Hm w).
  destruct (m w) as [[a|e] w']; simpl in *; [done|].
  destruct (c e); [|done]. by rewrite (Hh w').
Qed.

Lemma stable_modify (g : World → World) :
  (∀ w, f (g w) = f w) → stable f (modify g).
Proof. intros H w. apply H. Qed.

End stable.

(** The attributes of [F1DataManager] that no method of the client touches. *)
Definition manager_attributes (w : World) : list dict * option (list dict) :=
  (completed_races w, race_schedule w).

Section manager_attributes.
Context (cfg : Config) (env : Env).

Local Ltac stable_step :=
  first
    [ apply stable_ret | apply stable_lift | apply stable_raise
    | apply stable_get_world
    | apply stable_bind; [|intros ?]
    | apply stable_try_except
    | apply stable_modify; by intros []
    | by intros []
    | match goal with
      | |- stable _ (match ?x with _ => _ end) => destruct x
      | |- stable _ (if ?x then _ else _) => destruct x
      | |- stable _ (let '(_, _) := ?x in _) => destruct x
      end ].

Lemma make_request_attributes endpoint :
  stable manager_attributes (JolpicaAPIClient._make_request cfg env endpoint).
Proof.
  unfold JolpicaAPIClient._make_request, JolpicaAPIClient._get_cache_key,
    JolpicaAPIClient.time_time, JolpicaAPIClient.session_get.
  repeat stable_step.
  intros [] ; simpl. by destruct (network env _ _).
Qed.

Lemma get_current_season_races_attributes :
  stable manager_attributes (JolpicaAPIClient.get_current_season_races cfg env).
Proof.
  unfold JolpicaAPIClient.get_current_season_races.
  repeat first [apply make_request_attributes | stable_step].
Qed.

Lemma client_driver_standings_attributes :
  stable manager_attributes (JolpicaAPIClient.get_driver_standings cfg env).
Proof.
  unfold JolpicaAPIClient.get_driver_standings.
  repeat first [apply make_request_attributes | stable_step].
Qed.

Lemma client_constructor_standings_attributes :
  stable manager_attributes (JolpicaAPIClient.get_constructor_standings cfg env).
Proof.
  unfold JolpicaAPIClient.get_constructor_standings.
  repeat first [apply make_request_attributes | stable_step].
Qed.

Lemma determine_race_status_attributes v :
  stable manager_attributes (F1DataManager._determine_race_status env v).
Proof.
  unfold F1DataManager._determine_race_status, F1DataManager.now_date.
  repeat stable_step.
Qed.

Lemma process_races_attributes current_date races processed :
  stable manager_attributes
    (F1DataManager.process_races env current_date races processed).
Proof.
  revert processed. induction races as [|race rest IH]; intros processed;
    cbn [F1DataManager.process_races]; [apply stable_ret|].
  apply stable_bind; [|intros ?; apply IH].
  unfold F1DataManager.process_race.
  repeat first [apply determine_race_status_attributes | stable_step].
Qed.

Lemma get_live_race_schedule_attributes :
  stable manager_attributes (F1DataManager.get_live_race_schedule cfg env).
Proof.
  unfold F1DataManager.get_live_race_schedule, F1DataManager.now_date.
  repeat first [apply get_current_season_races_attributes
               | apply process_races_attributes | stable_step].
Qed.

Lemma get_next_race_attributes :
  stable manager_attributes (F1DataManager.get_next_race cfg env).
Proof.
  unfold F1DataManager.get_next_race.
  repeat first [apply get_live_race_schedule_attributes | stable_step].
Qed.

Lemma get_race_schedule_attributes :
  stable manager_attributes (F1DataManager.get_race_schedule cfg env).
Proof.
  unfold F1DataManager.get_race_schedule.
  repeat first [apply get_live_race_schedule_attributes | stable_step].
Qed.

Lemma get_driver_standings_attributes :
  stable manager_attributes (F1DataManager.get_driver_standings cfg env).
Proof.
  unfold F1DataManager.get_driver_standings.
  repeat first [apply client_driver_standings_attributes | stable_step].
Qed.

Lemma get_constructor_standings_attributes :
  stable manager_attributes (F1DataManager.get_constructor_standings cfg env).
Proof.
  unfold F1DataManager.get_constructor_standings.
  repeat first [apply client_constructor_standings_attributes | stable_step].
Qed.

Lemma get_latest_race_results_attributes :
  stable manager_attributes F1DataManager.get_latest_race_results.
Proof.
  unfold F1DataManager.get_latest_race_results. repeat stable_step.
Qed.

End manager_attributes.

(** ** [mark_race_completed] *)

(** The calls a client of [F1DataManager] can make. *)
Inductive method : Type :=
  | GetLiveRaceSchedule
  | GetNextRace
  | GetRaceSchedule
  | GetConstructorStandings
  | GetDriverStandings
  | GetLatestRaceResults
  | MarkRaceCompleted (race_round : pyval).

Section reachable.
Context (cfg : Config) (env : Env).
Import F1DataManager.

(** The world a call leaves, whatever it returns or raises. *)
Definition after (m : method) (w : World) : World :=
  match m with
  | GetLiveRaceSchedule => (get_live_race_schedule cfg env w).2
  | GetNextRace => (get_next_race cfg env w).2
  | GetRaceSchedule => (get_race_schedule cfg env w).2
  | GetConstructorStandings => (get_constructor_standings cfg env w).2
  | GetDriverStandings => (get_driver_standings cfg env w).2
  | GetLatestRaceResults => (get_latest_race_results w).2
  | MarkRaceCompleted race_round => (mark_race_completed race_round w).2
  end.

(** The worlds reached from a fresh [F1DataManager()] by method calls. *)
Inductive reachable : World → Prop :=
  | reachable_init : reachable __init__
  | reachable_call m w : reachable w → reachable (after m w).

Lemma mark_race_completed_unset race_round w :
  race_schedule w = None →
  mark_race_completed race_round w = (Raise AttributeError, w).
Proof. intros H. unfold mark_race_completed. unfold_M. by rewrite H. Qed.

Lemma reachable_attributes w :
  reachable w → manager_attributes w = ([], None).
Proof.
  induction 1 as [|m w _ IH]; [done|].
  rewrite <- IH. destruct m; simpl.
  - apply get_live_race_schedule_attributes.
  - apply get_next_race_attributes.
  - apply get_race_schedule_attributes.
  - apply get_constructor_standings_attributes.
  - apply get_driver_standings_attributes.
  - apply get_latest_race_results_attributes.
  - rewrite mark_race_completed_unset; [done|].
    by injection IH.
Qed.

(** C10.  On a freshly constructed [F1DataManager], and after any
    sequence of calls of its methods, [mark_race_completed] raises
    [AttributeError] for every [race_round] and leaves the world as it
    was: no method assigns [race_schedule], and [completed_races] stays
    empty. *)
Theorem mark_race_completed_raises (race_round : pyval) :
  mark_race_completed race_round __init__ = (Raise AttributeError, __init__)
  ∧ ∀ w, reachable w →
      race_schedule w = None ∧ completed_races w = [] ∧
      mark_race_completed race_round w = (Raise AttributeError, w).
Proof.
  split; [done|]. intros w Hw.
  pose proof (reachable_attributes w Hw) as H. injection H as Hc Hs.
  by rewrite mark_race_completed_unset.
Qed.

End reachable.

Lemma mark_race_completed_raises_witness :
  let env := example_env 1758500000 (Date 2025 9 22) network_down in
  let w := after example_config env GetNextRace F1DataManager.__init__ in
  reachable example_config env w
  ∧ F1DataManager.mark_race_completed (VInt 17) w = (Raise AttributeError, w).
Proof.
  intros env w.
  assert (reachable example_config env w) as Hw by repeat constructor.
  split; [exact Hw|].
  apply (mark_race_completed_raises example_config env (VInt 17)). exact Hw.
Defined.

(** ** The client fetch: cache and failures *)

(** [response.raise_for_status()] raises on this response. *)
Definition error_status (r : Response) : bool :=
  (400 <=? status_code r) && (status_code r <? 600).

(** The outcomes of a request on which the fetch fails: no response, a
    response with a 4xx or 5xx status, a body that is not JSON. *)
Definition is_failure (o : http_outcome) : bool :=
  match o with
  | TimedOut | ConnectionFailed => true
  | Responded r =>
      ((400 <=? status_code r) && (status_code r <? 600))
      || match body r with NotJSON => true | _ => false end
  end.

(** The exception that leaves the fetch, on the outcomes where the decoder
    is reached and raises one that is no [JSONDecodeError]: a response whose
    status is no error and whose body is nested too deep or holds too long
    an integer. *)
Definition escaping (o : http_outcome) : option exn :=
  match o with
  | Responded r =>
      if error_status r then None
      else
        match body r with
        | TooDeep => Some RecursionError
        | HugeNumber => Some ValueError
        | _ => None
        end
  | _ => None
  end.

Section make_request.
Context (cfg : Config) (env : Env).
Import JolpicaAPIClient.

(** The key [_get_cache_key] computes when called in world [w]. *)
Definition key_at (endpoint : string) (w : World) : string :=
  endpoint +:+ "_" +:+ pretty (Z.quot (clock_time env (ticks w)) (API_CACHE_TTL cfg)).

(** The outcome of the request [_make_request] sends from world [w]. *)
Definition outcome_at (endpoint : string) (w : World) : http_outcome :=
  network env (List.length (sent w)) (request_url cfg endpoint).

Lemma time_bucket_floor t :
  0 ≤ t → 0 < API_CACHE_TTL cfg → time_bucket cfg t = Ok (t / API_CACHE_TTL cfg).
Proof.
  intros Ht Httl. unfold time_bucket.
  destruct (Z.eqb_spec (API_CACHE_TTL cfg) 0); [lia|].
  by rewrite Z.quot_div_nonneg by lia.
Qed.

Lemma make_request_zero_ttl endpoint w :
  API_CACHE_TTL cfg = 0 →
  _make_request cfg env endpoint w = (Raise ZeroDivisionError, tick w).
Proof.
  intros H. unfold _make_request, _get_cache_key, time_time, time_bucket.
  unfold_M. by rewrite H.
Qed.

Lemma make_request_hit endpoint w data :
  API_CACHE_TTL cfg ≠ 0 →
  cache w !! key_at endpoint w = Some data →
  _make_request cfg env endpoint w = (Ok (Some data), tick w).
Proof.
  intros Httl H. unfold _make_request, _get_cache_key, time_time, time_bucket.
  unfold_M. destruct (Z.eqb_spec (API_CACHE_TTL cfg) 0); [done|].
  simpl. unfold key_at in H. by rewrite H.
Qed.

Lemma make_request_miss endpoint w :
  API_CACHE_TTL cfg ≠ 0 →
  cache w !! key_at endpoint w = None →
  _make_request cfg env endpoint w =
    let w' := log_request (request_url cfg endpoint) (tick w) in
    match outcome_at endpoint w with
    | Responded r =>
        match raise_for_status r ≫= (λ _, json r) with
        | Ok data => (Ok (Some data), set_cache <[key_at endpoint w := data]> w')
        | Raise e => if is_RequestException e then (Ok None, w') else (Raise e, w')
        end
    | _ => (Ok None, w')
    end.
Proof.
  intros Httl H.
  unfold _make_request, _get_cache_key, time_time, time_bucket, session_get,
    outcome_at.
  unfold_M. destruct (Z.eqb_spec (API_CACHE_TTL cfg) 0); [done|].
  simpl. unfold key_at in H. rewrite H. simpl.
  destruct (network env _ _) as [| |r]; [done|done|].
  unfold raise_for_status, json.
  destruct (_ && _); [done|]. simpl. by destruct (body r).
Qed.

(** The same, by the kind of the outcome. *)
Lemma make_request_miss_cases endpoint w :
  API_CACHE_TTL cfg ≠ 0 →
  cache w !! key_at endpoint w = None →
  let w' := log_request (request_url cfg endpoint) (tick w) in
  (is_failure (outcome_at endpoint w) = true
   ∧ escaping (outcome_at endpoint w) = None
   ∧ _make_request cfg env endpoint w = (Ok None, w'))
  ∨ (∃ e,
       escaping (outcome_at endpoint w) = Some e
       ∧ is_failure (outcome_at endpoint w) = false
       ∧ is_RequestException e = false
       ∧ (e = RecursionError ∨ e = ValueError)
       ∧ _make_request cfg env endpoint w = (Raise e, w'))
  ∨ (∃ r data,
       outcome_at endpoint w = Responded r ∧ error_status r = false
       ∧ body r = JSON data
       ∧ is_failure (outcome_at endpoint w) = false
       ∧ escaping (outcome_at endpoint w) = None
       ∧ _make_request cfg env endpoint w
         = (Ok (Some data), set_cache <[key_at endpoint w := data]> w')).
Proof.
  intros Httl Hmiss w'. rewrite make_request_miss by done. fold w'.
  unfold is_failure, escaping, error_status, raise_for_status, json.
  destruct (outcome_at endpoint w) as [| |r]; [by left|by left|].
  destruct (_ && _) eqn:Hs; simpl; [by left|].
  destruct (body r) as [data| | |] eqn:Hb; simpl.
  - right. right. by exists r, data.
  - by left.
  - right. left. exists RecursionError. eauto 10.
  - right. left. exists ValueError. eauto 10.
Qed.

(** C5, as amended.  With a non-zero cache TTL, a call whose key is cached
    returns the cached payload.  A call whose key is not cached sends its
    request and
    - returns [None], caching nothing, when the request meets a timeout, a
      connection failure, a 4xx or 5xx status, or a body that is not JSON;
    - returns the payload, and caches it, when the status is any other
      (300, say) and the body is JSON the decoder reads;
    - raises the exception of the decoder, which is no [RequestException],
      when the status is no error and the body is JSON that the decoder
      gives up on: [RecursionError] on a body nested too deep, [ValueError]
      on an integer too long.
    No other exception leaves the call. *)
Theorem make_request_contains_failures (endpoint : string) (w : World) :
  API_CACHE_TTL cfg ≠ 0 →
  let call := _make_request cfg env endpoint w in
  let w' := log_request (request_url cfg endpoint) (tick w) in
  (∀ data, cache w !! key_at endpoint w = Some data →
     call = (Ok (Some data), tick w))
  ∧ (cache w !! key_at endpoint w = None →
     (is_failure (outcome_at endpoint w) = true →
        call = (Ok None, w') ∧ cache w' = cache w)
     ∧ (∀ r data,
          outcome_at endpoint w = Responded r →
          ¬ (400 ≤ status_code r < 600) → body r = JSON data →
          call = (Ok (Some data), set_cache <[key_at endpoint w := data]> w'))
     ∧ (∀ e, escaping (outcome_at endpoint w) = Some e →
          call = (Raise e, w') ∧ is_RequestException e = false))
  ∧ (∀ e, call.1 = Raise e →
       escaping (outcome_at endpoint w) = Some e
       ∧ (e = RecursionError ∨ e = ValueError)).
Proof.
  intros Httl call w'. subst call. split; [|split].
  - intros data H. by apply make_request_hit.
  - intros Hmiss.
    destruct (make_request_miss_cases endpoint w Httl Hmiss)
      as [(Hf & Hd & ->)|[(e & Hd & Hf & He & _ & ->)
                         |(r & data & Ho & Hs & Hb & Hf & Hd & ->)]];
      fold w'; rewrite Hf, Hd; (split; [done|]); (split; [|by intros ? [= <-]]).
    + intros r' data' Ho' Hs' Hb'. exfalso. revert Hf.
      unfold is_failure. rewrite Ho', Hb'.
      destruct (Z.leb_spec 400 (status_code r')), (Z.ltb_spec (status_code r') 600);
        simpl; first [done|lia].
    + intros r' data' Ho' Hs' Hb'. exfalso. revert Hd.
      unfold escaping. rewrite Ho', Hb'. by destruct (error_status r').
    + intros r' data' Ho' _ Hb'.
      rewrite Ho in Ho'. injection Ho' as <-. rewrite Hb in Hb'. by injection Hb' as <-.
  - intros e.
    destruct (cache w !! key_at endpoint w) as [data|] eqn:Hc.
    + by rewrite (make_request_hit _ _ data).
    + destruct (make_request_miss_cases endpoint w Httl Hc)
        as [(Hf & Hd & ->)|[(e' & Hd & Hf & He & Hk & ->)
                           |(r & data & Ho & Hs & Hb & Hf & Hd & ->)]];
        simpl; [done| |done].
      by intros [= <-].
Qed.

(** C4, as amended.  A call of [_make_request] sends at most one request,
    whatever its outcome.  When it returns a payload, the payload is in the
    cache under the key of the endpoint and the time bucket, and a call for
    the same endpoint made from any world that still holds this entry, at a
    time in the same bucket, returns that payload and sends no request.
    A fetch that fails (the TTL is not zero, the key is not cached, and the
    request meets a timeout, a connection failure, a 4xx or 5xx status or a
    body that is not JSON) returns [None] and caches nothing, and a call for
    the same endpoint made from any world without that entry, at a time in
    the same bucket, sends a new request. *)
Theorem make_request_served_from_cache (endpoint : string) (w : World) :
  let call := _make_request cfg env endpoint in
  let url := request_url cfg endpoint in
  (sent (call w).2 = sent w ∨ sent (call w).2 = url :: sent w)
  ∧ (∀ data w1,
       call w = (Ok (Some data), w1) →
       cache w1 !! key_at endpoint w = Some data
       ∧ ∀ w2,
           cache w2 !! key_at endpoint w = Some data →
           time_bucket cfg (clock_time env (ticks w2))
             = time_bucket cfg (clock_time env (ticks w)) →
           call w2 = (Ok (Some data), tick w2)
           ∧ sent (call w2).2 = sent w2)
  ∧ (API_CACHE_TTL cfg ≠ 0 →
     cache w !! key_at endpoint w = None →
     is_failure (outcome_at endpoint w) = true →
     (call w).1 = Ok None
     ∧ sent (call w).2 = url :: sent w
     ∧ cache (call w).2 = cache w
     ∧ ∀ w2,
         cache w2 !! key_at endpoint w = None →
         time_bucket cfg (clock_time env (ticks w2))
           = time_bucket cfg (clock_time env (ticks w)) →
         sent (call w2).2 = url :: sent w2).
Proof.
  intros call url. subst call url.
  destruct (Z.eq_dec (API_CACHE_TTL cfg) 0) as [Httl|Httl].
  { rewrite make_request_zero_ttl by done.
    split; [by left|]. split; [intros; discriminate|done]. }
  assert (∀ w2,
            time_bucket cfg (clock_time env (ticks w2))
              = time_bucket cfg (clock_time env (ticks w)) →
            key_at endpoint w2 = key_at endpoint w) as Hkey.
  { intros w2 Hb. unfold time_bucket in Hb.
    destruct (Z.eqb_spec (API_CACHE_TTL cfg) 0); [done|].
    injection Hb as Hb. unfold key_at. by rewrite Hb. }
  assert (∀ w2,
            cache w2 !! key_at endpoint w2 = None →
            sent (_make_request cfg env endpoint w2).2
              = request_url cfg endpoint :: sent w2) as Hsend.
  { intros w2 Hc.
    by destruct (make_request_miss_cases endpoint w2 Httl Hc)
      as [(_ & _ & ->)|[(e & _ & _ & _ & _ & ->)
                       |(r & data & _ & _ & _ & _ & _ & ->)]]. }
  destruct (cache w !! key_at endpoint w) as [data'|] eqn:Hc.
  - rewrite (make_request_hit _ _ data') by done.
    split; [by left|]. split; [|done].
    intros data w1 [= <- <-]. split; [done|].
    intros w2 Hc2 Hb. rewrite <- (Hkey w2 Hb) in Hc2.
    by rewrite (make_request_hit _ _ data').
  - split; [right; by apply Hsend|].
    destruct (make_request_miss_cases endpoint w Httl Hc)
      as [(Hf & _ & ->)|[(e & _ & Hf & _ & _ & ->)
                        |(r & data' & _ & _ & _ & Hf & _ & ->)]];
      rewrite Hf.
    + split; [intros; discriminate|].
      intros _ _ _. repeat split; try done.
      intros w2 Hc2 Hb. apply Hsend. by rewrite (Hkey w2 Hb).
    + split; [intros; discriminate|done].
    + split; [|done].
      intros data w1 [= <- <-]. split; [apply lookup_insert_eq|].
      intros w2 Hc2 Hb. rewrite <- (Hkey w2 Hb) in Hc2.
      by rewrite (make_request_hit _ _ data').
Qed.

End make_request.

(** A body that is JSON: the empty object. *)
Definition empty_payload : Remote.Payload := {| Remote.MRData_ := None |}.

(** A server that answers every request with the given status and an empty
    JSON object. *)
Definition network_answers (status : Z) : nat → string → http_outcome :=
  λ _ _, Responded {| status_code := status; body := JSON empty_payload |}.

(** A server whose every answer the decoder gives up on. *)
Definition network_overwhelms (body : Body) : nat → string → http_outcome :=
  λ _ _, Responded {| status_code := 200; body := body |}.

Lemma make_request_contains_failures_witness :
  let env := example_env 1758500000 (Date 2025 9 22) network_down in
  API_CACHE_TTL example_config ≠ 0
  ∧ cache F1DataManager.__init__ !! key_at example_config env "2025" F1DataManager.__init__
    = None
  ∧ is_failure (outcome_at example_config env "2025" F1DataManager.__init__) = true
  ∧ JolpicaAPIClient._make_request example_config env "2025" F1DataManager.__init__
    = (Ok None,
       log_request (JolpicaAPIClient.request_url example_config "2025")
         (tick F1DataManager.__init__)).
Proof.
  intros env.
  assert (API_CACHE_TTL example_config ≠ 0) as Httl by done.
  assert (cache F1DataManager.__init__
            !! key_at example_config env "2025" F1DataManager.__init__ = None)
    as Hmiss by reflexivity.
  assert (is_failure (outcome_at example_config env "2025" F1DataManager.__init__)
          = true) as Hf by reflexivity.
  split; [exact Httl|]. split; [exact Hmiss|]. split; [exact Hf|].
  destruct (make_request_contains_failures example_config env "2025"
              F1DataManager.__init__ Httl) as (_ & H & _).
  destruct (H Hmiss) as (Hnone & _).
  exact (proj1 (Hnone Hf)).
Defined.

(** C5, as stated, fails on a status that is neither 2xx nor an error for
    [raise_for_status]: a 300 response with a JSON body is returned (and
    cached) as a success. *)
Lemma make_request_accepts_status_300 :
  let env := example_env 1758500000 (Date 2025 9 22) (network_answers 300) in
  ¬ (200 ≤ 300 < 300)
  ∧ cache F1DataManager.__init__ !! key_at example_config env "2025" F1DataManager.__init__
    = None
  ∧ (JolpicaAPIClient._make_request example_config env "2025" F1DataManager.__init__).1
    = Ok (Some empty_payload).
Proof. split; [lia|]. split; reflexivity. Qed.

(** It fails as well on a body the decoder gives up on: its exception
    leaves [_make_request], after the request was sent. *)
Example make_request_raises_recursion_error :
  let env := example_env 1758500000 (Date 2025 9 22) (network_overwhelms TooDeep) in
  let call :=
    JolpicaAPIClient._make_request example_config env "2025" F1DataManager.__init__ in
  call.1 = Raise RecursionError
  ∧ sent call.2 = ["https://api.jolpi.ca/ergast/f1/2025/races.json"]
  ∧ cache call.2 = ∅.
Proof. repeat split; vm_compute; reflexivity. Qed.

Example make_request_raises_value_error :
  let env :=
    example_env 1758500000 (Date 2025 9 22) (network_overwhelms HugeNumber) in
  let call :=
    JolpicaAPIClient._make_request example_config env "2025" F1DataManager.__init__ in
  call.1 = Raise ValueError
  ∧ sent call.2 = ["https://api.jolpi.ca/ergast/f1/2025/races.json"]
  ∧ cache call.2 = ∅.
Proof. repeat split; vm_compute; reflexivity. Qed.

(** The repository catches them: its schedule is then the static one. *)
Example schedule_when_decoder_gives_up :
  ∀ b, b = TooDeep ∨ b = HugeNumber →
  match (F1DataManager.get_live_race_schedule example_config
           (example_env 1758500000 (Date 2025 9 22) (network_overwhelms b))
           F1DataManager.__init__).1 with
  | Ok l => map (λ r : dict, r !! "round") l
  | Raise _ => []
  end = map (λ r : dict, r !! "round") F1DataManager._get_fallback_schedule.
Proof. intros b [->| ->]; vm_compute; reflexivity. Qed.

Lemma make_request_served_from_cache_witness :
  let url := "https://api.jolpi.ca/ergast/f1/2025/races.json" in
  (let env := example_env 1758500000 (Date 2025 9 22) (network_answers 200) in
   let call := JolpicaAPIClient._make_request example_config env "2025" in
   let w1 := (call F1DataManager.__init__).2 in
   call F1DataManager.__init__ = (Ok (Some empty_payload), w1)
   ∧ call w1 = (Ok (Some empty_payload), tick w1)
   ∧ sent (call w1).2 = [url])
  ∧ (let env := example_env 1758500000 (Date 2025 9 22) network_down in
     let call := JolpicaAPIClient._make_request example_config env "2025" in
     let w1 := (call F1DataManager.__init__).2 in
     (call F1DataManager.__init__).1 = Ok None
     ∧ cache w1 = ∅
     ∧ sent (call w1).2 = [url; url]).
Proof.
  intros url. split.
  - intros env call w1.
    assert (call F1DataManager.__init__ = (Ok (Some empty_payload), w1)) as H
      by (vm_compute; reflexivity).
    split; [exact H|].
    destruct (make_request_served_from_cache example_config env "2025"
                F1DataManager.__init__) as (_ & Hhit & _).
    destruct (Hhit empty_payload w1 H) as (Hc & Hnext).
    destruct (Hnext w1 Hc) as [H2 H3]; [reflexivity|].
    split; [exact H2|]. transitivity (sent w1); [exact H3|reflexivity].
  - intros env call w1.
    destruct (make_request_served_from_cache example_config env "2025"
                F1DataManager.__init__) as (_ & _ & Hfail).
    destruct Hfail as (Hnone & Hsent & Hcache & Hnext);
      [done|reflexivity|reflexivity|].
    split; [exact Hnone|]. split; [exact Hcache|].
    transitivity (url :: sent w1); [|f_equal; exact Hsent].
    apply (Hnext w1); reflexivity.
Defined.

(** C4, as stated, fails when the first fetch fails: nothing is cached, and
    a second call in the same time bucket sends a second request. *)
Lemma make_request_refetches_after_failure :
  let env := example_env 1758500000 (Date 2025 9 22) network_down in
  let call := JolpicaAPIClient._make_request example_config env "2025" in
  let w1 := (call F1DataManager.__init__).2 in
  let w2 := (call w1).2 in
  JolpicaAPIClient.time_bucket example_config (clock_time env (ticks F1DataManager.__init__))
    = JolpicaAPIClient.time_bucket example_config (clock_time env (ticks w1))
  ∧ (call F1DataManager.__init__).1 = Ok None
  ∧ (call w1).1 = Ok None
  ∧ sent w2 = [ "https://api.jolpi.ca/ergast/f1/2025/races.json";
                "https://api.jolpi.ca/ergast/f1/2025/races.json" ].
Proof. repeat split; vm_compute; reflexivity. Qed.

(** ** The repository when the remote source is down *)

Lemma bind_Ok {A B} (m : M A) (k : A → M B) w a w' :
  m w = (Ok a, w') → (m ≫= k) w = k a w'.
Proof. intros H. unfold_M. by rewrite H. Qed.

Lemma bind_Raise {A B} (m : M A) (k : A → M B) w e w' :
  m w = (Raise e, w') → (m ≫= k) w = (Raise e, w').
Proof. intros H. unfold_M. by rewrite H. Qed.

Lemma try_except_Ok {A} (m h : M A) c w a w' :
  m w = (Ok a, w') → try_except m c h w = (Ok a, w').
Proof. intros H. unfold try_except. by rewrite H. Qed.

Lemma try_except_Raise {A} (m h : M A) c w e w' :
  m w = (Raise e, w') → c e = true → try_except m c h w = h w'.
Proof. intros H Hc. unfold try_except. by rewrite H, Hc. Qed.

(** The first race of the static schedule. *)
Lemma fallback_schedule_head :
  ∃ first rest,
    F1DataManager._get_fallback_schedule = first :: rest
    ∧ first !! "circuit" = Some (VStr "Baku City Circuit")
    ∧ first !! "country" = Some (VStr "Azerbaijan")
    ∧ first !! "location" = None
    ∧ first !! "date" = Some (VStr "2025-09-21")
    ∧ first !! "status" = Some (VStr "upcoming").
Proof.
  eexists _, _. split; [reflexivity|].
  repeat split; vm_compute; reflexivity.
Qed.

(** [get_next_race] on a schedule whose first race has a circuit and a
    country and no location. *)
Lemma get_next_race_from cfg env w first rest circuit country w' :
  F1DataManager.get_live_race_schedule cfg env w = (Ok (first :: rest), w') →
  first !! "circuit" = Some (VStr circuit) →
  first !! "country" = Some (VStr country) →
  first !! "location" = None →
  F1DataManager.get_next_race cfg env w
    = (Ok (<["location" := VStr (circuit +:+ ", " +:+ country)]> first), w').
Proof.
  intros H Hc Hn Hl. unfold F1DataManager.get_next_race. apply try_except_Ok.
  rewrite (bind_Ok _ _ _ _ _ H). unfold lift, F1DataManager.next_race_of.
  by rewrite Hl, Hc, Hn.
Qed.

(** The fields a caller reads in a race record. *)
Definition is_int (o : option pyval) : bool :=
  match o with Some (VInt _) => true | _ => false end.
Definition is_str (o : option pyval) : bool :=
  match o with Some (VStr _) => true | _ => false end.
Definition is_natural (o : option pyval) : bool :=
  match o with Some (VInt n) => 0 <=? n | _ => false end.

Definition well_formed_race (r : dict) : bool :=
  is_int (r !! "round") && is_str (r !! "name") && is_str (r !! "circuit")
  && is_str (r !! "country") && is_str (r !! "time")
  && is_str (r !! "race_time_ist")
  && match r !! "date" with
     | Some (VStr s) => is_Ok (strptime s)
     | _ => false
     end
  && match r !! "status" with
     | Some (VStr s) => bool_decide (s ∈ ["upcoming"; "live"; "completed"])
     | _ => false
     end.

Definition well_formed_standing (team_only : bool) (r : dict) : bool :=
  match r !! "position" with Some (VInt n) => 1 <=? n | _ => false end
  && (team_only || is_str (r !! "driver")) && is_str (r !! "team")
  && is_natural (r !! "points") && is_natural (r !! "wins").

Definition well_formed_results (r : RaceResults) : bool :=
  forallb (λ d, is_int (d !! "position") && is_str (d !! "driver")
                && is_str (d !! "team") && is_str (d !! "time"))
    (rs_results r)
  && negb (Nat.eqb (List.length (rs_results r)) 0).

Section remote_down.
Context (cfg : Config) (env : Env).

(** The remote source is down: every request fails. *)
Hypothesis down : ∀ n url, is_failure (network env n url) = true.

Lemma make_request_down endpoint w :
  cache w = ∅ →
  ∃ r w', JolpicaAPIClient._make_request cfg env endpoint w = (r, w')
          ∧ cache w' = ∅ ∧ (r = Ok None ∨ r = Raise ZeroDivisionError).
Proof.
  intros Hc. destruct (Z.eq_dec (API_CACHE_TTL cfg) 0) as [Httl|Httl].
  - rewrite make_request_zero_ttl by done. eexists _, _. eauto.
  - assert (cache w !! key_at cfg env endpoint w = None) as Hmiss
      by (by rewrite Hc).
    rewrite make_request_miss by done. simpl.
    pose proof (down (List.length (sent w))
                  (JolpicaAPIClient.request_url cfg endpoint)) as Hf.
    unfold outcome_at. unfold is_failure in Hf.
    destruct (network env _ _) as [| |r]; try (eexists _, _; by eauto).
    unfold JolpicaAPIClient.raise_for_status, JolpicaAPIClient.json.
    destruct (_ && _); simpl in *; [eexists _, _; by eauto|].
    destruct (body r); [discriminate| |discriminate..]. simpl.
    eexists _, _. by eauto.
Qed.

Lemma get_current_season_races_down w :
  cache w = ∅ →
  ∃ r w', JolpicaAPIClient.get_current_season_races cfg env w = (r, w')
          ∧ cache w' = ∅ ∧ (r = Ok [] ∨ r = Raise ZeroDivisionError).
Proof.
  intros Hc. unfold JolpicaAPIClient.get_current_season_races. unfold_M.
  destruct (make_request_down (pretty (get_current_season cfg)) w Hc)
    as (r & w1 & -> & Hc1 & [->| ->]); simpl; [|eexists _, _; eauto].
  destruct (make_request_down "current" w1 Hc1)
    as (r & w2 & -> & Hc2 & [->| ->]); simpl; eexists _, _; eauto.
Qed.

Lemma get_live_race_schedule_down w :
  cache w = ∅ →
  ∃ w', F1DataManager.get_live_race_schedule cfg env w
          = (Ok F1DataManager._get_fallback_schedule, w').
Proof.
  intros Hc. unfold F1DataManager.get_live_race_schedule. unfold_M.
  destruct (get_current_season_races_down w Hc)
    as (r & w1 & -> & _ & [->| ->]); simpl; by eexists.
Qed.

Lemma client_driver_standings_down w :
  cache w = ∅ →
  ∃ r w', JolpicaAPIClient.get_driver_standings cfg env w = (r, w')
          ∧ (r = Ok [] ∨ r = Raise ZeroDivisionError).
Proof.
  intros Hc. unfold JolpicaAPIClient.get_driver_standings. unfold_M.
  destruct (make_request_down ("current" +:+ "/driverStandings") w Hc)
    as (r & w1 & -> & _ & [->| ->]); simpl; eexists _, _; eauto.
Qed.

Lemma client_constructor_standings_down w :
  cache w = ∅ →
  ∃ r w', JolpicaAPIClient.get_constructor_standings cfg env w = (r, w')
          ∧ (r = Ok [] ∨ r = Raise ZeroDivisionError).
Proof.
  intros Hc. unfold JolpicaAPIClient.get_constructor_standings. unfold_M.
  destruct (make_request_down ("current" +:+ "/constructorStandings") w Hc)
    as (r & w1 & -> & _ & [->| ->]); simpl; eexists _, _; eauto.
Qed.

(** C6.  When every request fails (and nothing is cached), each public
    method of the repository returns, without raising, its fallback data:
    the static schedule, its first race (with the location added), the
    static driver and constructor standings, the static result set.  Each
    of them is non-empty and has the fields of its record. *)
Theorem fallback_when_remote_down (w : World) :
  cache w = ∅ →
  (∃ w', F1DataManager.get_race_schedule cfg env w
           = (Ok F1DataManager._get_fallback_schedule, w'))
  ∧ (∃ first rest w',
       F1DataManager._get_fallback_schedule = first :: rest
       ∧ F1DataManager.get_next_race cfg env w
         = (Ok (<["location" := VStr "Baku City Circuit, Azerbaijan"]> first), w')
       ∧ well_formed_race
           (<["location" := VStr "Baku City Circuit, Azerbaijan"]> first) = true)
  ∧ (∃ w', F1DataManager.get_driver_standings cfg env w
             = (Ok F1DataManager.driver_standings, w'))
  ∧ (∃ w', F1DataManager.get_constructor_standings cfg env w
             = (Ok F1DataManager.constructor_standings, w'))
  ∧ (∃ w', F1DataManager.get_latest_race_results w
             = (Ok F1DataManager._get_fallback_race_results, w'))
  ∧ (List.length F1DataManager._get_fallback_schedule = 6%nat
     ∧ forallb well_formed_race F1DataManager._get_fallback_schedule = true)
  ∧ (List.length F1DataManager.driver_standings = 3%nat
     ∧ forallb (well_formed_standing false) F1DataManager.driver_standings = true)
  ∧ (List.length F1DataManager.constructor_standings = 3%nat
     ∧ forallb (well_formed_standing true) F1DataManager.constructor_standings = true)
  ∧ well_formed_results F1DataManager._get_fallback_race_results = true.
Proof.
  intros Hc. repeat apply conj.
  - destruct (get_live_race_schedule_down w Hc) as [w' H].
    exists w'. unfold F1DataManager.get_race_schedule.
    by apply try_except_Ok.
  - destruct (get_live_race_schedule_down w Hc) as [w' H].
    exists (F1DataManager.fallback_race 17 "Qatar Airways Azerbaijan Grand Prix"
              "Baku City Circuit" "Azerbaijan" "2025-09-21" "17:00" "17:00").
    eexists _, w'. split; [reflexivity|]. split.
    + by apply (get_next_race_from _ _ _ _ _ "Baku City Circuit" "Azerbaijan" _ H).
    + vm_compute. reflexivity.
  - unfold F1DataManager.get_driver_standings. unfold_M.
    destruct (client_driver_standings_down w Hc)
      as (r & w1 & -> & [->| ->]); simpl; by eexists.
  - unfold F1DataManager.get_constructor_standings. unfold_M.
    destruct (client_constructor_standings_down w Hc)
      as (r & w1 & -> & [->| ->]); simpl; by eexists.
  - by exists w.
  - reflexivity.
  - vm_compute. reflexivity.
  - reflexivity.
  - vm_compute. reflexivity.
  - reflexivity.
  - vm_compute. reflexivity.
  - vm_compute. reflexivity.
Qed.

End remote_down.

Lemma fallback_when_remote_down_witness :
  cache F1DataManager.__init__ = ∅ ∧
  ∃ w', F1DataManager.get_race_schedule example_config
          (example_env 1758500000 (Date 2025 9 22) network_down)
          F1DataManager.__init__
        = (Ok F1DataManager._get_fallback_schedule, w').
Proof.
  split; [reflexivity|].
  apply (fallback_when_remote_down example_config
           (example_env 1758500000 (Date 2025 9 22) network_down)).
  - intros n url. reflexivity.
  - reflexivity.
Defined.

(** ** The upcoming schedule *)

(** What the loop of [get_live_race_schedule] puts in a processed race: a
    date that is not before [current_date], a circuit and a country, and no
    location. *)
Definition processed_from (current_date : date) (r : dict) : Prop :=
  ∃ s d circuit country,
    r !! "date" = Some (VStr s) ∧ strptime s = Ok d ∧ ¬ later current_date d
    ∧ r !! "circuit" = Some (VStr circuit)
    ∧ r !! "country" = Some (VStr country)
    ∧ r !! "location" = None.

Ltac case_steps H :=
  repeat match type of H with
         | context [match ?x with _ => _ end] =>
             let E := fresh "E" in destruct x eqn:E; simpl in H; try discriminate
         end.

Section schedule.
Context (cfg : Config) (env : Env).
Import F1DataManager.

Lemma process_race_spec current_date race w r w' :
  process_race env current_date race w = (Ok (Some r), w') →
  processed_from current_date r.
Proof.
  unfold process_race. unfold_M. intros H.
  destruct (Remote.date race) as [s|]; simpl in H; [|discriminate].
  destruct (strptime s) as [d|] eqn:Hd; simpl in H; [|discriminate].
  destruct (date_ge d current_date) eqn:Hge; [|discriminate].
  case_steps H.
  injection H as <- _.
  exists s, d. eexists _, _. unfold dict_of. simpl.
  repeat split; [done| by apply date_ge_spec |..]; by simplify_map_eq.
Qed.

Lemma process_races_spec current_date races :
  ∀ processed w l w',
    Forall (processed_from current_date) processed →
    process_races env current_date races processed w = (Ok l, w') →
    Forall (processed_from current_date) l.
Proof.
  induction races as [|race rest IH]; intros processed w l w' Hp H.
  - injection H as <- _. done.
  - cbn [process_races] in H. unfold mbind, M_bind in H.
    destruct (process_race env current_date race w) as [[o|e] w1] eqn:E;
      [|discriminate].
    apply (IH _ _ _ _) in H; [done|].
    destruct o as [r|]; [|done].
    apply Forall_app. split; [done|].
    apply Forall_singleton. by eapply process_race_spec.
Qed.

(** Unless it falls back, the call filters on the date it reads from the
    clock once the client has returned the races. *)
Lemma get_live_race_schedule_spec w :
  ∃ l w',
    get_live_race_schedule cfg env w = (Ok l, w')
    ∧ (l = _get_fallback_schedule
       ∨ (l ≠ []
          ∧ ∃ races w1,
              JolpicaAPIClient.get_current_season_races cfg env w = (Ok races, w1)
              ∧ Forall (processed_from (clock_date env (ticks w1))) l)).
Proof.
  unfold get_live_race_schedule. unfold_M.
  destruct (JolpicaAPIClient.get_current_season_races cfg env w)
    as [[races|e] w1]; simpl; [|eexists _, _; eauto].
  destruct (process_races env _ races [] (tick w1)) as [[l|e] w2] eqn:E;
    [|eexists _, _; eauto].
  destruct l as [|r l]; [eexists _, _; eauto|].
  eexists _, _. split; [done|]. right. split; [done|].
  exists races, w1. split; [done|].
  eapply process_races_spec; [|exact E]. done.
Qed.

(** C2, as amended.  [get_live_race_schedule] returns, without raising,
    either the static fallback schedule or a non-empty sequence in which
    every race has a date that is not before today: the date the call reads
    from the clock once the client has returned the season's races. *)
Theorem live_race_schedule_upcoming_or_fallback (w : World) :
  ∃ l w',
    get_live_race_schedule cfg env w = (Ok l, w')
    ∧ (l = _get_fallback_schedule
       ∨ (l ≠ []
          ∧ ∃ races w1,
              JolpicaAPIClient.get_current_season_races cfg env w = (Ok races, w1)
              ∧ let today := clock_date env (ticks w1) in
                ∀ r, r ∈ l →
                  ∃ s d, r !! "date" = Some (VStr s) ∧ strptime s = Ok d
                         ∧ ¬ later today d)).
Proof.
  destruct (get_live_race_schedule_spec w)
    as (l & w' & H & [->|(Hne & races & w1 & Hr & Hl)]).
  - eexists _, _. eauto.
  - exists l, w'. split; [done|]. right. split; [done|].
    exists races, w1. split; [done|]. intros today r Hin.
    rewrite Forall_forall in Hl.
    destruct (Hl r Hin) as (s & d & _ & _ & Hs & Hd & Hlater & _). eauto.
Qed.

(** C9, as amended.  [get_live_race_schedule] never returns an empty
    sequence, and [get_next_race] returns its first element with one entry
    added: "location", holding the circuit, a comma and the country.  On an
    empty sequence the body of [get_next_race] returns
    [fallback_data["next_race"]], which is the first entry of the
    configured fallback schedule, unchanged, when there is one. *)
Theorem next_race_is_first_with_location (w : World) :
  (∃ first rest circuit country w',
     get_live_race_schedule cfg env w = (Ok (first :: rest), w')
     ∧ first !! "circuit" = Some (VStr circuit)
     ∧ first !! "country" = Some (VStr country)
     ∧ first !! "location" = None
     ∧ get_next_race cfg env w
       = (Ok (<["location" := VStr (circuit +:+ ", " +:+ country)]> first), w'))
  ∧ next_race_of cfg [] = Ok (fallback_next_race cfg)
  ∧ (∀ r rs, RACE_SCHEDULE cfg = r :: rs → fallback_next_race cfg = r).
Proof.
  split; [|split; [done|]].
  - assert (∃ first rest circuit country w',
              get_live_race_schedule cfg env w = (Ok (first :: rest), w')
              ∧ first !! "circuit" = Some (VStr circuit)
              ∧ first !! "country" = Some (VStr country)
              ∧ first !! "location" = None)
      as (first & rest & circuit & country & w' & H & Hc & Hn & Hl).
    { destruct (get_live_race_schedule_spec w)
        as (l & w' & H & [->|(Hne & races & w1 & _ & Hk)]).
      - destruct fallback_schedule_head as (first & rest & E & ? & ? & ? & _).
        rewrite E in H. by eexists first, rest, _, _, w'.
      - destruct l as [|first rest]; [done|].
        apply Forall_cons in Hk as [(s & d & circuit & country & ? & ? & ? & ? & ? & ?) _].
        by eexists first, rest, circuit, country, w'. }
    exists first, rest, circuit, country, w'. repeat split; try done.
    by apply (get_next_race_from _ _ _ _ rest).
  - intros r rs E. unfold fallback_next_race. by rewrite E.
Qed.

End schedule.

(** The day after the first race of the static schedule, remote source down. *)
Definition stale_env : Env :=
  example_env 1758500000 (Date 2025 9 22) network_down.

Lemma stale_schedule :
  ∃ w', F1DataManager.get_live_race_schedule example_config stale_env
          F1DataManager.__init__
        = (Ok F1DataManager._get_fallback_schedule, w').
Proof. by apply get_live_race_schedule_down. Qed.

(** C2, as stated, fails on the fallback path: the static schedule is
    returned whole, whatever the date, and on 2025-09-22 its first race,
    dated 2025-09-21, is in the past. *)
Lemma live_race_schedule_returns_past_race :
  ∃ first rest,
    (F1DataManager.get_live_race_schedule example_config stale_env
       F1DataManager.__init__).1 = Ok (first :: rest)
    ∧ first !! "date" = Some (VStr "2025-09-21")
    ∧ strptime "2025-09-21" = Ok (Date 2025 9 21)
    ∧ clock_date stale_env 0 = Date 2025 9 22
    ∧ later (Date 2025 9 22) (Date 2025 9 21).
Proof.
  destruct stale_schedule as [w' H].
  destruct fallback_schedule_head as (first & rest & E & _ & _ & _ & Hd & _).
  exists first, rest. rewrite H, E. repeat split; try done.
  unfold later. simpl. lia.
Qed.

(** C9, as stated, fails: the race [get_next_race] returns is not the first
    element [get_live_race_schedule] returns, it has one entry more. *)
Lemma next_race_differs_from_first :
  ∃ first rest next_race,
    (F1DataManager.get_live_race_schedule example_config stale_env
       F1DataManager.__init__).1 = Ok (first :: rest)
    ∧ (F1DataManager.get_next_race example_config stale_env
         F1DataManager.__init__).1 = Ok next_race
    ∧ first !! "location" = None
    ∧ next_race !! "location" = Some (VStr "Baku City Circuit, Azerbaijan")
    ∧ next_race ≠ first.
Proof.
  destruct stale_schedule as [w' H].
  destruct fallback_schedule_head as (first & rest & E & Hc & Hn & Hl & _).
  rewrite E in H.
  pose proof (get_next_race_from _ _ _ _ _ _ _ _ H Hc Hn Hl) as Hnext.
  exists first, rest, (<["location" := VStr "Baku City Circuit, Azerbaijan"]> first).
  rewrite H, Hnext. repeat split; try done.
  - apply lookup_insert_eq.
  - intros Heq. apply (f_equal (λ d : dict, d !! "location")) in Heq.
    rewrite lookup_insert_eq, Hl in Heq. discriminate.
Qed.

(** C1.  With the remote source down on 2025-09-22, [get_live_race_schedule]
    returns the literal list of the second [_get_fallback_schedule]: its
    first race, dated 2025-09-21, carries the status "upcoming" of the
    literal, where the classifier applied to that date says "completed".
    The statuses of the list are the literal's whatever the date. *)
Theorem fallback_schedule_status_is_literal :
  (F1DataManager.get_live_race_schedule example_config stale_env
     F1DataManager.__init__).1 = Ok F1DataManager._get_fallback_schedule
  ∧ (∃ first rest,
       F1DataManager._get_fallback_schedule = first :: rest
       ∧ first !! "date" = Some (VStr "2025-09-21")
       ∧ first !! "status" = Some (VStr "upcoming")
       ∧ (F1DataManager._determine_race_status stale_env (VStr "2025-09-21")
            F1DataManager.__init__).1 = Ok "completed")
  ∧ forallb (λ r : dict, bool_decide (r !! "status" = Some (VStr "upcoming")))
      F1DataManager._get_fallback_schedule = true.
Proof.
  split; [|split].
  - destruct stale_schedule as [w' H]. by rewrite H.
  - destruct fallback_schedule_head as (first & rest & E & _ & _ & _ & Hd & Hs).
    exists first, rest. repeat split; try done.
  - vm_compute. reflexivity.
Qed.

(** The first definition of [_get_fallback_schedule], were it the one in
    force over the same six races, would classify the race of 2025-09-21 as
    completed on 2025-09-22. *)
Example shadowed_fallback_schedule_recomputes :
  let cfg :=
    {| JOLPICA_API_BASE := JOLPICA_API_BASE example_config;
       API_CACHE_TTL := API_CACHE_TTL example_config;
       get_current_season := get_current_season example_config;
       season_races := season_races example_config;
       RACE_SCHEDULE := F1DataManager._get_fallback_schedule |} in
  match (F1DataManager._get_fallback_schedule_shadowed cfg stale_env
           F1DataManager.__init__).1 with
  | Ok l => map (λ r : dict, r !! "status") l
  | Raise _ => []
  end
  = [ Some (VStr "completed"); Some (VStr "upcoming"); Some (VStr "upcoming");
      Some (VStr "upcoming"); Some (VStr "upcoming"); Some (VStr "upcoming") ].
Proof. vm_compute. reflexivity. Qed.

(** ** Driver names *)

(** Text made of whitespace only. *)
Inductive spaces (ascii_space : ascii → bool) : list ascii → Prop :=
  | spaces_nil : spaces ascii_space []
  | spaces_1 a l :
      ascii_space a = true → spaces ascii_space l → spaces ascii_space (a :: l)
  | spaces_2 a b l :
      is_space2 a b = true → spaces ascii_space l → spaces ascii_space (a :: b :: l)
  | spaces_3 a b c l :
      is_space3 a b c = true → spaces ascii_space l →
      spaces ascii_space (a :: b :: c :: l).

Lemma spaces_app sp l1 l2 : spaces sp l1 → spaces sp l2 → spaces sp (l1 ++ l2)%list.
Proof.
  induction 1; intros; simpl;
    [done | apply spaces_1; auto | apply spaces_2; auto | apply spaces_3; auto].
Qed.

(** [lstrip_with] removes a run of whitespace its argument opens with, and
    stops where it finds none. *)
Lemma lstrip_with_spec sp backwards cs :
  ∃ l, cs = (l ++ lstrip_with sp backwards cs)%list
       ∧ spaces sp (if backwards then rev l else l)
       ∧ lstrip_with sp backwards (lstrip_with sp backwards cs)
         = lstrip_with sp backwards cs.
Proof.
  remember (List.length cs) as n eqn:Hn. revert cs Hn.
  induction n as [n IH] using lt_wf_ind. intros cs ->.
  assert (∀ l' : list ascii, spaces sp (if backwards then rev l' else l') →
          ∀ pre, spaces sp (if backwards then rev pre else pre) →
          spaces sp (if backwards then rev (pre ++ l') else (pre ++ l')%list)) as Happ.
  { intros l' Hl' pre Hpre. destruct backwards.
    - rewrite rev_app_distr. by apply spaces_app.
    - by apply spaces_app. }
  assert (spaces sp (if backwards then rev [] else [])) as Hnil
    by (destruct backwards; constructor).
  destruct cs as [|a r1]; [by exists []|].
  destruct (sp a) eqn:Ha.
  { destruct (IH (List.length r1)) with (cs := r1) as (l & E & Hl & Hi);
      [simpl; lia|done|].
    exists ([a] ++ l)%list. cbn [lstrip_with]. rewrite Ha.
    split; [simpl; by rewrite <- E|]. split; [|done].
    apply Happ; [done|]. destruct backwards; simpl; by repeat constructor. }
  destruct r1 as [|b r2].
  { exists []. cbn [lstrip_with]. rewrite Ha. cbn [lstrip_with]. by rewrite Ha. }
  destruct (if backwards then is_space2 b a else is_space2 a b) eqn:Hab.
  { destruct (IH (List.length r2)) with (cs := r2) as (l & E & Hl & Hi);
      [simpl; lia|done|].
    exists ([a; b] ++ l)%list. cbn [lstrip_with]. rewrite Ha, Hab.
    split; [simpl; by rewrite <- E|]. split; [|done].
    apply Happ; [done|]. destruct backwards; simpl; by repeat constructor. }
  destruct r2 as [|c r3].
  { exists []. cbn [lstrip_with]. rewrite Ha, Hab. cbn [lstrip_with].
    by rewrite Ha, Hab. }
  destruct (if backwards then is_space3 c b a else is_space3 a b c) eqn:Habc.
  { destruct (IH (List.length r3)) with (cs := r3) as (l & E & Hl & Hi);
      [simpl; lia|done|].
    exists ([a; b; c] ++ l)%list. cbn [lstrip_with]. rewrite Ha, Hab, Habc.
    split; [simpl; by rewrite <- E|]. split; [|done].
    apply Happ; [done|]. destruct backwards; simpl; by repeat constructor. }
  exists []. cbn [lstrip_with]. rewrite Ha, Hab, Habc. cbn [lstrip_with].
  by rewrite Ha, Hab, Habc.
Qed.

(** [strip] removes a run of whitespace at each end and nothing else, and
    leaves no whitespace at the end. *)
Lemma strip_chars_spec cs :
  ∃ l r,
    cs = (l ++ strip_chars cs ++ r)%list
    ∧ spaces is_space l ∧ spaces is_space r
    ∧ lstrip_with is_space true (rev (strip_chars cs)) = rev (strip_chars cs).
Proof.
  unfold strip_chars, strip_with.
  destruct (lstrip_with_spec is_space false cs) as (l & E & Hl & _).
  destruct (lstrip_with_spec is_space true (rev (lstrip_with is_space false cs)))
    as (r & E' & Hr & Hi).
  exists l, (rev r). repeat split; try done.
  - by rewrite <- rev_app_distr, <- E', rev_involutive.
  - by rewrite rev_involutive.
Qed.

(** The no-break space U+00A0. *)
Definition nbsp : string := String "194" (String "160" "").

Example strip_removes_unicode_whitespace :
  strip (nbsp +:+ " Lewis Hamilton" +:+ nbsp) = "Lewis Hamilton".
Proof. reflexivity. Qed.

(** [int] skips the whitespace of [Py_ISSPACE], not the separators 28..31
    that [strip] removes, and reads no more than 4300 digits. *)
Example int_literals :
  int " 17 " = Ok 17 ∧ int "-1_000" = Ok (-1000) ∧ int ("7" +:+ nbsp) = Ok 7
  ∧ int (String "028" "7") = Raise ValueError
  ∧ int "25.5" = Raise ValueError ∧ int "" = Raise ValueError
  ∧ int (str (repeat "0"%char 4301)) = Raise ValueError.
Proof. repeat split; vm_compute; reflexivity. Qed.

Section driver_names.
Context (cfg : Config) (env : Env).
Import F1DataManager.

(** The name [get_driver_standings] gives a remote record. *)
Definition normalized_name (standing : Remote.DriverStanding) (d : dict) : Prop :=
  ∃ driver,
    Remote.Driver_ standing = Some driver
    ∧ d !! "driver"
      = Some (VStr (strip (default "" (Remote.givenName driver) +:+ " " +:+
                           default "" (Remote.familyName driver)))).




Lemma process_driver_standing_name standing d :
  process_driver_standing standing = Ok d → normalized_name standing d.
Proof.
  unfold process_driver_standing, normalized_name.
  unfold mbind, result_bind, getitem. intros H.
  destruct (Remote.Driver_ standing) as [driver|]; [|discriminate].
  case_steps H; injection H as <-;
    (exists driver; split; [done|]; unfold dict_of, full_name_of; simpl;
     by simplify_map_eq).
Qed.


Lemma process_standings_Forall2 {A} (process : A → result dict) standings :
  ∀ processed out,
    process_standings process standings processed = Ok out →
    ∃ out', out = (processed ++ out')%list
            ∧ Forall2 (λ s d, process s = Ok d) standings out'.
Proof.
  induction standings as [|s rest IH]; intros processed out H.
  - injection H as <-. exists []. by rewrite app_nil_r.
  - cbn [process_standings] in H. unfold mbind, result_bind in H.
    destruct (process s) as [d|] eqn:E; [|discriminate].
    apply IH in H as (out' & -> & HF).
    exists (d :: out'). rewrite <- app_assoc. split; [done|].
    by constructor.
Qed.



End driver_names.

(** A remote standings table with the two drivers of the specification, and
    a third whose names are edged with whitespace of several kinds. *)
Definition example_standing (given family : string) : Remote.DriverStanding :=
  {| Remote.position := Some "1"; Remote.points := Some "25";
     Remote.wins := Some "1";
     Remote.Driver_ := Some {| Remote.givenName := Some given;
                               Remote.familyName := Some family |};
     Remote.Constructors := Some [{| Remote.name := Some "Ferrari" |}] |}.

Definition example_standings : list Remote.DriverStanding :=
  [example_standing "Lewis" "Hamilton";
   example_standing "" "Hamilton";
   example_standing (nbsp +:+ "Sergio") ("Pérez" +:+ nbsp +:+ " ")].

Definition example_standings_payload : Remote.Payload :=
  {| Remote.MRData_ := Some
       {| Remote.RaceTable_ := None;
          Remote.StandingsTable_ := Some
            {| Remote.StandingsLists := Some
                 [{| Remote.DriverStandings := Some example_standings;
                     Remote.ConstructorStandings := None |}] |} |} |}.


Example driver_names_from_remote :
  match (F1DataManager.get_driver_standings example_config
           (example_env 1758500000 (Date 2025 9 22)
              (λ _ _, Responded {| status_code := 200;
                                   body := JSON example_standings_payload |}))
           F1DataManager.__init__).1 with
  | Ok out => map (λ d : dict, d !! "driver") out
  | Raise _ => []
  end = [Some (VStr "Lewis Hamilton"); Some (VStr "Hamilton");
         Some (VStr "Sergio Pérez")].
Proof. vm_compute. reflexivity. Qed.

(** ** The remote path, end to end

    A season of two races, one the day before and one the day after
    2025-09-22: the schedule is the second race alone, "upcoming", and its
    time of day "14:00:00Z" is displayed as the default "17:00". *)

Definition example_race (round name date : string) : Remote.Race :=
  {| Remote.round := Some round;
     Remote.raceName := Some name;
     Remote.Circuit_ := Some
       {| Remote.circuitName := Some "Baku City Circuit";
          Remote.Location_ := Some {| Remote.country := Some "Azerbaijan" |} |};
     Remote.date := Some date;
     Remote.time := Some "14:00:00Z" |}.

Definition example_races_payload : Remote.Payload :=
  {| Remote.MRData_ := Some
       {| Remote.RaceTable_ := Some
            {| Remote.Races := Some
                 [example_race "16" "Yesterday Grand Prix" "2025-09-21";
                  example_race "17" "Tomorrow Grand Prix" "2025-09-23"] |};
          Remote.StandingsTable_ := None |} |}.

Example upcoming_schedule_from_remote :
  match (F1DataManager.get_live_race_schedule example_config
           (example_env 1758500000 (Date 2025 9 22)
              (λ _ _, Responded {| status_code := 200;
                                   body := JSON example_races_payload |}))
           F1DataManager.__init__).1 with
  | Ok l =>
      map (λ r : dict, (r !! "round", r !! "date", r !! "status",
                        r !! "race_time_ist")) l
  | Raise _ => []
  end
  = [(Some (VInt 17), Some (VStr "2025-09-23"), Some (VStr "upcoming"),
      Some (VStr "17:00"))].
Proof. vm_compute. reflexivity. Qed.

(** * Further properties of the client and the repository *)

(** ** Cache keys *)

(** The decimal rendering of an integer holds no underscore. *)
Fixpoint has_underscore (s : string) : bool :=
  match s with
  | EmptyString => false
  | String c s' => Ascii.eqb c "_" || has_underscore s'
  end.

Lemma pretty_N_go_no_underscore x s :
  has_underscore s = false → has_underscore (pretty_N_go x s) = false.
Proof.
  revert s. induction (N.lt_wf_0 x) as [x _ IH]; intros s Hs.
  assert (x = 0 ∨ 0 < x)%N as [->|?] by lia.
  - by rewrite pretty_N_go_0.
  - rewrite pretty_N_go_step by done. apply IH.
    { by apply N.div_lt. }
    simpl. rewrite Hs. unfold pretty_N_char. by repeat case_match.
Qed.

Lemma pretty_N_no_underscore (x : N) : has_underscore (pretty x) = false.
Proof.
  unfold pretty, pretty_N. case_decide; [done|].
  by apply pretty_N_go_no_underscore.
Qed.

Lemma pretty_Z_no_underscore (x : Z) : has_underscore (pretty x) = false.
Proof.
  destruct x as [|p|p]; [done|..]; unfold pretty, pretty_Z.
  - apply pretty_N_no_underscore.
  - simpl. apply pretty_N_no_underscore.
Qed.

Lemma has_underscore_app s t :
  has_underscore (s +:+ t) = has_underscore s || has_underscore t.
Proof.
  induction s as [|c s IH]; [done|]. simpl. rewrite IH. by rewrite orb_assoc.
Qed.

(** A string is cut in one way only at its last underscore. *)
Lemma split_at_last_underscore e1 e2 p1 p2 :
  has_underscore p1 = false → has_underscore p2 = false →
  e1 +:+ "_" +:+ p1 = e2 +:+ "_" +:+ p2 → e1 = e2 ∧ p1 = p2.
Proof.
  intros H1 H2. revert e2.
  induction e1 as [|c e1 IH]; intros [|c' e2] E; simpl in E.
  - injection E as E. by change ("" +:+ p1 = "" +:+ p2) with (p1 = p2) in E.
  - injection E as _ E. change ("" +:+ p1) with p1 in E. subst p1.
    rewrite has_underscore_app in H1. simpl in H1.
    by rewrite orb_true_r in H1.
  - injection E as _ E. change ("" +:+ p2) with p2 in E. subst p2.
    rewrite has_underscore_app in H2. simpl in H2.
    by rewrite orb_true_r in H2.
  - injection E as <- E. destruct (IH _ E) as [-> ->]. done.
Qed.

Section cache_keys.
Context (cfg : Config) (env : Env).
Import JolpicaAPIClient.

(** X1.  The cache key names its endpoint and its time bucket: two calls of
    [_get_cache_key] that return the same key were made for the same
    endpoint and in the same bucket, even when an endpoint holds
    underscores. *)
Theorem cache_key_names_endpoint_and_bucket
    (endpoint1 endpoint2 key : string) (w1 w2 w1' w2' : World) :
  _get_cache_key cfg env endpoint1 w1 = (Ok key, w1') →
  _get_cache_key cfg env endpoint2 w2 = (Ok key, w2') →
  endpoint1 = endpoint2
  ∧ time_bucket cfg (clock_time env (ticks w1))
    = time_bucket cfg (clock_time env (ticks w2)).
Proof.
  unfold _get_cache_key, time_time. unfold_M.
  destruct (time_bucket cfg (clock_time env (ticks w1))) as [b1|] eqn:E1;
    [|discriminate].
  destruct (time_bucket cfg (clock_time env (ticks w2))) as [b2|] eqn:E2;
    [|discriminate].
  simpl. intros [= <- _] [= E _].
  apply split_at_last_underscore in E as [-> E];
    try apply pretty_Z_no_underscore.
  apply (inj pretty) in E. by subst.
Qed.

(** X2.  Two non-negative times share a bucket only when they are less than one
    TTL apart, and a time and the time one TTL later never share one: an
    entry is served for less than [API_CACHE_TTL] seconds. *)
Theorem bucket_spans_less_than_ttl (t1 t2 : Z) :
  0 < API_CACHE_TTL cfg → 0 ≤ t1 → 0 ≤ t2 →
  (time_bucket cfg t1 = time_bucket cfg t2 → Z.abs (t1 - t2) < API_CACHE_TTL cfg)
  ∧ time_bucket cfg (t1 + API_CACHE_TTL cfg) ≠ time_bucket cfg t1.
Proof.
  intros Httl H1 H2.
  rewrite !time_bucket_floor by lia. split.
  - intros [= E]. pose proof (Z.div_mod t1 (API_CACHE_TTL cfg)).
    pose proof (Z.div_mod t2 (API_CACHE_TTL cfg)).
    pose proof (Z.mod_pos_bound t1 (API_CACHE_TTL cfg) Httl).
    pose proof (Z.mod_pos_bound t2 (API_CACHE_TTL cfg) Httl).
    rewrite E in *. lia.
  - intros [= E].
    replace (t1 + API_CACHE_TTL cfg) with (t1 + 1 * API_CACHE_TTL cfg) in E by lia.
    rewrite Z.div_add in E by lia. lia.
Qed.

End cache_keys.

Lemma cache_key_names_endpoint_and_bucket_witness :
  let env := example_env 1758500000 (Date 2025 9 22) network_down in
  JolpicaAPIClient._get_cache_key example_config env "current/driverStandings"
    F1DataManager.__init__
  = (Ok "current/driverStandings_5861666", tick F1DataManager.__init__)
  ∧ JolpicaAPIClient.time_bucket example_config 1758500000 = Ok 5861666.
Proof.
  intros env. split; [reflexivity|].
  pose proof (cache_key_names_endpoint_and_bucket example_config env
                "current/driverStandings" "current/driverStandings"
                "current/driverStandings_5861666"
                F1DataManager.__init__ F1DataManager.__init__
                (tick F1DataManager.__init__) (tick F1DataManager.__init__)
                eq_refl eq_refl) as [_ H].
  reflexivity.
Defined.

Lemma bucket_spans_less_than_ttl_witness :
  0 < API_CACHE_TTL example_config ∧ 0 ≤ 1758500000 ∧ 0 ≤ 1758500100
  ∧ JolpicaAPIClient.time_bucket example_config (1758500000 + 300)
    ≠ JolpicaAPIClient.time_bucket example_config 1758500000.
Proof.
  split; [done|]. split; [done|]. split; [done|].
  apply (bucket_spans_less_than_ttl example_config 1758500000 1758500100);
    simpl; lia.
Defined.

(** ** What a call adds to the world *)

(** [grows w w']: [w'] holds every cache entry of [w], with its payload,
    every request of [w] in the same place of the log, and no fewer clock
    readings. *)
Definition grows (w w' : World) : Prop :=
  cache w ⊆ cache w' ∧ sent w `suffix_of` sent w' ∧ (ticks w ≤ ticks w')%nat.

#[global] Instance grows_preorder : PreOrder grows.
Proof.
  split.
  - intros w. by repeat split.
  - intros w1 w2 w3 (? & ? & ?) (? & ? & ?). repeat split.
    + by etrans.
    + by etrans.
    + lia.
Qed.

Definition growing {A} (m : M A) : Prop := ∀ w, grows w (m w).2.

(** [sends_at_most n m]: running [m] sends at most [n] requests. *)
Definition sends_at_most (n : nat) {A} (m : M A) : Prop :=
  ∀ w, (List.length (sent (m w).2) ≤ List.length (sent w) + n)%nat.

Section growing.

Lemma growing_ret {A} (a : A) : growing (mret a).
Proof. intros w. reflexivity. Qed.

Lemma growing_lift {A} (r : result A) : growing (lift r).
Proof. intros w. reflexivity. Qed.

Lemma growing_bind {A B} (m : M A) (k : A → M B) :
  growing m → (∀ a, growing (k a)) → growing (m ≫= k).
Proof.
  intros Hm Hk w. unfold_M. specialize (Hm w).
  destruct (m w) as [[a|e] w']; simpl in *; [|done].
  etrans; [exact Hm|apply Hk].
Qed.

Lemma growing_try_except {A} (m h : M A) (c : exn → bool) :
  growing m → growing h → growing (try_except m c h).
Proof.
  intros Hm Hh w. unfold_M. specialize (Hm w).
  destruct (m w) as [[a|e] w']; simpl in *; [done|].
  destruct (c e); [|done]. etrans; [exact Hm|apply Hh].
Qed.

Lemma growing_tick {A} (f : World → A) : growing (λ w, (Ok (f w), tick w)).
Proof. intros w. repeat split; simpl; [done|done|lia]. Qed.

Lemma sends_ret {A} (a : A) : sends_at_most 0 (mret a).
Proof. intros w. simpl. lia. Qed.

Lemma sends_lift {A} (r : result A) : sends_at_most 0 (lift r).
Proof. intros w. simpl. lia. Qed.

Lemma sends_tick {A} (f : World → A) : sends_at_most 0 (λ w, (Ok (f w), tick w)).
Proof. intros w. simpl. lia. Qed.

Lemma sends_bind {A B} n k (m : M A) (f : A → M B) :
  sends_at_most n m → (∀ a, sends_at_most k (f a)) →
  sends_at_most (n + k) (m ≫= f).
Proof.
  intros Hm Hf w. unfold_M. specialize (Hm w).
  destruct (m w) as [[a|e] w']; simpl in *; [|lia].
  specialize (Hf a w'). lia.
Qed.

Lemma sends_try_except {A} n k (m h : M A) (c : exn → bool) :
  sends_at_most n m → sends_at_most k h →
  sends_at_most (n + k) (try_except m c h).
Proof.
  intros Hm Hh w. unfold_M. specialize (Hm w).
  destruct (m w) as [[a|e] w']; simpl in *; [lia|].
  destruct (c e); [|simpl; lia]. specialize (Hh w'). lia.
Qed.

Lemma sends_weaken {A} n k (m : M A) :
  (n ≤ k)%nat → sends_at_most n m → sends_at_most k m.
Proof. intros Hnk Hm w. specialize (Hm w). lia. Qed.

End growing.

Section growth.
Context (cfg : Config) (env : Env).

Lemma make_request_cases endpoint w :
  let r := JolpicaAPIClient._make_request cfg env endpoint w in
  r.2 = tick w
  ∨ (cache w !! key_at cfg env endpoint w = None
     ∧ (r.2 = log_request (JolpicaAPIClient.request_url cfg endpoint) (tick w)
        ∨ ∃ data,
            r.2 = set_cache <[key_at cfg env endpoint w := data]>
                    (log_request (JolpicaAPIClient.request_url cfg endpoint)
                       (tick w)))).
Proof.
  destruct (Z.eq_dec (API_CACHE_TTL cfg) 0) as [Httl|Httl]; simpl.
  { rewrite make_request_zero_ttl by done. by left. }
  destruct (cache w !! key_at cfg env endpoint w) as [data|] eqn:E.
  { rewrite (make_request_hit _ _ _ _ data) by done. by left. }
  right. split; [done|]. rewrite make_request_miss by done. simpl.
  destruct (outcome_at cfg env endpoint w) as [| |r]; try by left.
  destruct (_ ≫= _) as [data|e]; [right; by eexists|].
  left. by destruct (is_RequestException e).
Qed.

Lemma make_request_growing endpoint :
  growing (JolpicaAPIClient._make_request cfg env endpoint).
Proof.
  intros w.
  destruct (make_request_cases endpoint w) as [->|[Hmiss [->|[data ->]]]];
    repeat split; simpl; try done; try lia; try by apply suffix_cons_r.
  by apply insert_subseteq.
Qed.

Lemma make_request_sends endpoint :
  sends_at_most 1 (JolpicaAPIClient._make_request cfg env endpoint).
Proof.
  intros w.
  destruct (make_request_cases endpoint w) as [->|[Hmiss [->|[data ->]]]];
    simpl; lia.
Qed.

End growth.

Section method_growth.
Context (cfg : Config) (env : Env).

Local Ltac growing_step :=
  first
    [ apply growing_ret | apply growing_lift | apply growing_tick
    | apply make_request_growing
    | apply growing_bind; [|intros ?]
    | apply growing_try_except
    | match goal with
      | |- growing (match ?x with _ => _ end) => destruct x
      | |- growing (if ?x then _ else _) => destruct x
      end ].

Local Ltac silent_step :=
  first
    [ apply sends_ret | apply sends_lift | apply sends_tick
    | apply (sends_bind 0 0); [|intros ?]
    | match goal with
      | |- sends_at_most _ (match ?x with _ => _ end) => destruct x
      | |- sends_at_most _ (if ?x then _ else _) => destruct x
      end ].

Lemma get_current_season_races_growing :
  growing (JolpicaAPIClient.get_current_season_races cfg env).
Proof. unfold JolpicaAPIClient.get_current_season_races. repeat growing_step. Qed.

Lemma get_current_season_races_sends :
  sends_at_most 2 (JolpicaAPIClient.get_current_season_races cfg env).
Proof.
  unfold JolpicaAPIClient.get_current_season_races.
  apply (sends_bind 1 1); [apply make_request_sends|intros data].
  apply (sends_bind 0 1); [apply sends_lift|intros found].
  destruct found; [apply (sends_weaken 0); [lia|apply sends_ret]|].
  apply (sends_bind 1 0); [apply make_request_sends|intros d].
  destruct (d ≫= _); [apply sends_lift|apply sends_ret].
Qed.

Lemma client_driver_standings_growing :
  growing (JolpicaAPIClient.get_driver_standings cfg env).
Proof. unfold JolpicaAPIClient.get_driver_standings. repeat growing_step. Qed.

Lemma client_driver_standings_sends :
  sends_at_most 1 (JolpicaAPIClient.get_driver_standings cfg env).
Proof.
  unfold JolpicaAPIClient.get_driver_standings.
  apply (sends_bind 1 0); [apply make_request_sends|intros data].
  repeat silent_step.
Qed.

Lemma client_constructor_standings_growing :
  growing (JolpicaAPIClient.get_constructor_standings cfg env).
Proof. unfold JolpicaAPIClient.get_constructor_standings. repeat growing_step. Qed.

Lemma client_constructor_standings_sends :
  sends_at_most 1 (JolpicaAPIClient.get_constructor_standings cfg env).
Proof.
  unfold JolpicaAPIClient.get_constructor_standings.
  apply (sends_bind 1 0); [apply make_request_sends|intros data].
  repeat silent_step.
Qed.

Lemma determine_race_status_growing v :
  growing (F1DataManager._determine_race_status env v).
Proof.
  unfold F1DataManager._determine_race_status, F1DataManager.now_date.
  repeat growing_step.
Qed.

Lemma determine_race_status_sends v :
  sends_at_most 0 (F1DataManager._determine_race_status env v).
Proof.
  unfold F1DataManager._determine_race_status, F1DataManager.now_date.
  repeat silent_step.
Qed.

Lemma process_races_growing current_date races processed :
  growing (F1DataManager.process_races env current_date races processed).
Proof.
  revert processed. induction races as [|race rest IH]; intros processed;
    cbn [F1DataManager.process_races]; [apply growing_ret|].
  apply growing_bind; [|intros ?; apply IH].
  unfold F1DataManager.process_race.
  repeat first [apply determine_race_status_growing | growing_step].
Qed.

Lemma process_races_sends current_date races processed :
  sends_at_most 0 (F1DataManager.process_races env current_date races processed).
Proof.
  revert processed. induction races as [|race rest IH]; intros processed;
    cbn [F1DataManager.process_races]; [apply sends_ret|].
  apply (sends_bind 0 0); [|intros ?; apply IH].
  unfold F1DataManager.process_race.
  repeat first [apply determine_race_status_sends | silent_step].
Qed.

Lemma get_live_race_schedule_growing :
  growing (F1DataManager.get_live_race_schedule cfg env).
Proof.
  unfold F1DataManager.get_live_race_schedule, F1DataManager.now_date.
  repeat first [apply get_current_season_races_growing
               | apply process_races_growing | growing_step].
Qed.

Lemma get_live_race_schedule_sends :
  sends_at_most 2 (F1DataManager.get_live_race_schedule cfg env).
Proof.
  unfold F1DataManager.get_live_race_schedule, F1DataManager.now_date.
  apply (sends_try_except 2 0); [|apply sends_ret].
  apply (sends_bind 2 0); [apply get_current_season_races_sends|intros races].
  repeat first [apply process_races_sends | silent_step].
Qed.

(** X3.  Every call of a method of [F1DataManager] grows the world: no cache
    entry is removed or replaced, and the log of requests is only extended. *)
Theorem calls_never_evict (m : method) (w : World) :
  grows w (after cfg env m w)
  ∧ ∀ key data, cache w !! key = Some data →
                cache (after cfg env m w) !! key = Some data.
Proof.
  assert (grows w (after cfg env m w)) as H.
  { destruct m; simpl.
    - apply get_live_race_schedule_growing.
    - unfold F1DataManager.get_next_race.
      repeat first [apply get_live_race_schedule_growing | growing_step].
    - unfold F1DataManager.get_race_schedule.
      repeat first [apply get_live_race_schedule_growing | growing_step].
    - unfold F1DataManager.get_constructor_standings.
      repeat first [apply client_constructor_standings_growing | growing_step].
    - unfold F1DataManager.get_driver_standings.
      repeat first [apply client_driver_standings_growing | growing_step].
    - reflexivity.
    - unfold F1DataManager.mark_race_completed. unfold_M.
      destruct (race_schedule w); [|reflexivity].
      destruct (F1DataManager.mark_loop _ _) as [[? [?|]]|];
        repeat split; simpl; done. }
  split; [done|]. intros key data Hk.
  destruct H as (Hc & _). by eapply lookup_weaken.
Qed.

(** The requests a call may send. *)
Definition request_budget (m : method) : nat :=
  match m with
  | GetLiveRaceSchedule | GetNextRace | GetRaceSchedule => 2
  | GetConstructorStandings | GetDriverStandings => 1
  | GetLatestRaceResults | MarkRaceCompleted _ => 0
  end.

(** X4.  A schedule call sends at most two requests (the season, then "current"),
    a standings call at most one, and the race results and
    [mark_race_completed] none. *)
Theorem calls_send_within_budget (m : method) (w : World) :
  (List.length (sent (after cfg env m w))
   ≤ List.length (sent w) + request_budget m)%nat.
Proof.
  destruct m; simpl.
  - apply get_live_race_schedule_sends.
  - unfold F1DataManager.get_next_race.
    apply (sends_try_except 2 0); [|apply sends_ret].
    apply (sends_bind 2 0); [apply get_live_race_schedule_sends|intros ?].
    apply sends_lift.
  - unfold F1DataManager.get_race_schedule.
    apply (sends_try_except 2 0); [|apply sends_ret].
    apply get_live_race_schedule_sends.
  - unfold F1DataManager.get_constructor_standings.
    apply (sends_try_except 1 0); [|apply sends_ret].
    apply (sends_bind 1 0); [apply client_constructor_standings_sends|intros ?].
    repeat silent_step.
  - unfold F1DataManager.get_driver_standings.
    apply (sends_try_except 1 0); [|apply sends_ret].
    apply (sends_bind 1 0); [apply client_driver_standings_sends|intros ?].
    repeat silent_step.
  - lia.
  - unfold F1DataManager.mark_race_completed. unfold_M.
    destruct (race_schedule w); [|simpl; lia].
    destruct (F1DataManager.mark_loop _ _) as [[? [?|]]|]; simpl; lia.
Qed.

End method_growth.

(** ** The remote schedule, race by race *)

(** The day of a remote race, as the loop of [get_live_race_schedule] reads
    it. *)
Definition race_day (race : Remote.Race) : result date :=
  getitem (Remote.date race) ≫= strptime.

(** The other fields the loop reads of a race it keeps. *)
Definition race_fields (race : Remote.Race) : result (Z * string * string * string) :=
  round ← getitem (Remote.round race) ≫= int;
  name ← getitem (Remote.raceName race);
  circuit ← getitem (Remote.Circuit_ race);
  circuit_name ← getitem (Remote.circuitName circuit);
  location ← getitem (Remote.Location_ circuit);
  country ← getitem (Remote.country location);
  Ok (round, name, circuit_name, country).

(** The record built for a kept race whose status is [status]. *)
Definition processed_race (env : Env) (race : Remote.Race)
    (fields : Z * string * string * string) (status : string) : dict :=
  let '(round, name, circuit_name, country) := fields in
  let time := default "12:00:00" (Remote.time race) in
  dict_of
    [("round", VInt round); ("name", VStr name);
     ("circuit", VStr circuit_name); ("country", VStr country);
     ("date", VStr (default "" (Remote.date race))); ("time", VStr time);
     ("race_time_ist", VStr (F1DataManager._convert_to_ist env time));
     ("status", VStr status)].

(** [upcoming today race]: the race is dated [today] or later. *)
Definition upcoming (today : date) (race : Remote.Race) : bool :=
  match race_day race with
  | Ok d => date_ge d today
  | Raise _ => false
  end.

(** A race the loop processes without raising. *)
Definition well_formed_remote (today : date) (race : Remote.Race) : bool :=
  is_Ok (race_day race)
  && (negb (upcoming today race) || is_Ok (race_fields race)).

Section remote_schedule.
Context (cfg : Config) (env : Env).
Import F1DataManager.

Lemma process_race_eq current_date race w :
  process_race env current_date race w =
    match race_day race with
    | Raise e => (Raise e, w)
    | Ok d =>
        if date_ge d current_date then
          match race_fields race with
          | Raise e => (Raise e, w)
          | Ok fields =>
              (Ok (Some (processed_race env race fields
                           (race_status d (clock_date env (ticks w))))),
               tick w)
          end
        else (Ok None, w)
    end.
Proof.
  unfold process_race, race_day, race_fields, _determine_race_status, now_date.
  unfold_M. unfold result_bind.
  destruct (Remote.date race) as [s|] eqn:Hs; simpl; [|done].
  destruct (strptime s) as [d|] eqn:Hd; simpl; [|done].
  destruct (date_ge d current_date); [|done].
  destruct (Remote.round race) as [r|]; simpl; [|done].
  destruct (int r) as [n|]; simpl; [|done].
  destruct (Remote.raceName race) as [name|]; simpl; [|done].
  destruct (Remote.Circuit_ race) as [circuit|]; simpl; [|done].
  destruct (Remote.circuitName circuit) as [cn|]; simpl; [|done].
  destruct (Remote.Location_ circuit) as [loc|]; simpl; [|done].
  destruct (Remote.country loc) as [country|]; simpl; [|done].
  by rewrite Hs.
Qed.

(** A race with no date, or with a date [strptime] rejects, stops the loop. *)
Lemma process_races_bad_day current_date races race :
  race ∈ races → is_Ok (race_day race) = false →
  ∀ processed w, ∃ e w',
    process_races env current_date races processed w = (Raise e, w').
Proof.
  intros Hin Hbad. induction races as [|r rest IH]; intros processed w.
  { by apply elem_of_nil in Hin. }
  cbn [process_races]. unfold mbind, M_bind. rewrite process_race_eq.
  apply elem_of_cons in Hin as [<-|Hin].
  - destruct (race_day race); [discriminate|]. by eexists _, _.
  - destruct (race_day r) as [d|]; [|by eexists _, _].
    destruct (date_ge d current_date); [|by apply IH].
    destruct (race_fields r); [by apply IH|by eexists _, _].
Qed.

(** What the loop appends for a kept race: its fields, and the status of its
    day against the date of some later reading of the clock. *)
Definition record_of (from : nat) (race : Remote.Race) (r : dict) : Prop :=
  ∃ d fields k,
    race_day race = Ok d ∧ race_fields race = Ok fields ∧ (from ≤ k)%nat
    ∧ r = processed_race env race fields (race_status d (clock_date env k)).

Lemma process_races_well_formed current_date races :
  Forall (λ race, well_formed_remote current_date race = true) races →
  ∀ processed w, ∃ l w',
    process_races env current_date races processed w
      = (Ok (processed ++ l)%list, w')
    ∧ Forall2 (record_of (ticks w)) (List.filter (upcoming current_date) races) l.
Proof.
  induction 1 as [|race rest Hwf _ IH]; intros processed w.
  { exists [], w. rewrite app_nil_r. by split. }
  cbn [process_races List.filter]. unfold mbind, M_bind.
  rewrite process_race_eq.
  unfold well_formed_remote, upcoming in *.
  destruct (race_day race) as [d|] eqn:Hd; [|done]. simpl in Hwf.
  destruct (date_ge d current_date); simpl in Hwf.
  - destruct (race_fields race) as [fields|] eqn:Hf; [|done].
    destruct (IH (processed ++ [processed_race env race fields
                     (race_status d (clock_date env (ticks w)))])%list (tick w))
      as (l & w' & -> & HF).
    eexists (_ :: l), w'. rewrite <- app_assoc. split; [done|].
    constructor.
    + exists d, fields, (ticks w). by repeat split.
    + eapply Forall2_impl; [exact HF|].
      intros x y (d' & f' & k & ? & ? & Hk & ?). exists d', f', k.
      repeat split; try done. simpl in Hk. lia.
  - apply IH.
Qed.

End remote_schedule.

Lemma Forall2_elem_of_r {A B} (R : A → B → Prop) xs ys y :
  Forall2 R xs ys → y ∈ ys → ∃ x, x ∈ xs ∧ R x y.
Proof.
  induction 1 as [|x y' xs ys HR _ IH]; intros Hy.
  - by apply elem_of_nil in Hy.
  - apply elem_of_cons in Hy as [->|Hy].
    + exists x. split; [left|done].
    + destruct (IH Hy) as (x' & ? & ?). exists x'. split; [by right|done].
Qed.

Lemma processed_race_lookups env race fields status :
  let r := processed_race env race fields status in
  r !! "round" = Some (VInt fields.1.1.1)
  ∧ r !! "name" = Some (VStr fields.1.1.2)
  ∧ r !! "circuit" = Some (VStr fields.1.2)
  ∧ r !! "country" = Some (VStr fields.2)
  ∧ r !! "date" = Some (VStr (default "" (Remote.date race)))
  ∧ r !! "status" = Some (VStr status).
Proof.
  destruct fields as [[[round name] circuit] country].
  unfold processed_race, dict_of. simpl. repeat split; by simplify_map_eq.
Qed.

Section remote_schedule_properties.
Context (cfg : Config) (env : Env).
Import F1DataManager.

Lemma process_races_malformed current_date races race :
  race ∈ races → well_formed_remote current_date race = false →
  ∀ processed w, ∃ e w',
    process_races env current_date races processed w = (Raise e, w').
Proof.
  intros Hin Hbad. induction races as [|r rest IH]; intros processed w.
  { by apply elem_of_nil in Hin. }
  cbn [process_races]. unfold mbind, M_bind. rewrite process_race_eq.
  apply elem_of_cons in Hin as [<-|Hin].
  - unfold well_formed_remote, upcoming in Hbad.
    destruct (race_day race) as [d|]; [|by eexists _, _]. simpl in Hbad.
    destruct (date_ge d current_date); [|done]. simpl in Hbad.
    destruct (race_fields race); [done|by eexists _, _].
  - destruct (race_day r) as [d|]; [|by eexists _, _].
    destruct (date_ge d current_date); [|by apply IH].
    destruct (race_fields r); [by apply IH|by eexists _, _].
Qed.

Lemma process_races_records current_date races :
  ∀ processed w l w',
    process_races env current_date races processed w = (Ok l, w') →
    ∃ l', l = (processed ++ l')%list
          ∧ Forall2 (record_of env (ticks w))
              (List.filter (upcoming current_date) races) l'.
Proof.
  induction races as [|race rest IH]; intros processed w l w' H.
  { injection H as <- _. exists []. rewrite app_nil_r. by split. }
  cbn [process_races List.filter] in *. unfold mbind, M_bind in H.
  rewrite process_race_eq in H. unfold upcoming.
  destruct (race_day race) as [d|] eqn:Hd; [|discriminate].
  destruct (date_ge d current_date).
  - destruct (race_fields race) as [fields|] eqn:Hf; [|discriminate].
    apply IH in H as (l' & -> & HF).
    eexists (_ :: l'). rewrite <- app_assoc. split; [done|].
    constructor.
    + exists d, fields, (ticks w). by repeat split.
    + eapply Forall2_impl; [exact HF|].
      intros x y (d' & f' & k & ? & ? & Hk & ?). exists d', f', k.
      repeat split; try done. simpl in Hk. lia.
  - by apply IH in H.
Qed.


(** What a record of the schedule shows of the remote race it comes from. *)
Definition lists (race : Remote.Race) (r : dict) : Prop :=
  r !! "date" = VStr <$> Remote.date race
  ∧ r !! "name" = VStr <$> Remote.raceName race
  ∧ (∃ round, (getitem (Remote.round race) ≫= int) = Ok round
              ∧ r !! "round" = Some (VInt round)).

(** X6.  When every race of the client's list is well formed, the schedule is
    the list of its upcoming races, one record per race in the order of the
    list, none dropped and none added; with no upcoming race, it is the
    static fallback. *)
Theorem remote_schedule_lists_upcoming_races
    (w w1 : World) (races : list Remote.Race) :
  JolpicaAPIClient.get_current_season_races cfg env w = (Ok races, w1) →
  let today := clock_date env (ticks w1) in
  Forall (λ race, well_formed_remote today race = true) races →
  ∃ l w',
    get_live_race_schedule cfg env w = (Ok l, w')
    ∧ match List.filter (upcoming today) races with
      | [] => l = _get_fallback_schedule
      | kept => Forall2 lists kept l
      end.
Proof.
  intros Hr today Hwf. subst today. set (today := clock_date env (ticks w1)) in *.
  unfold get_live_race_schedule. unfold_M.
  rewrite Hr. simpl. fold today.
  destruct (process_races_well_formed env today races Hwf [] (tick w1))
    as (l & w' & -> & HF).
  assert (Forall2 lists (List.filter (upcoming today) races) l) as HL.
  { eapply Forall2_impl; [exact HF|].
    intros race r (d & [[[round name] circuit] country] & k & Hd & Hf & _ & ->).
    pose proof (processed_race_lookups env race (round, name, circuit, country)
                  (race_status d (clock_date env k)))
      as (Hround & Hname & _ & _ & Hdate & _).
    unfold lists, race_day, race_fields in *. unfold mbind, result_bind in *.
    destruct (Remote.date race) as [s|]; [|discriminate].
    destruct (Remote.round race) as [rs|]; [|discriminate].
    simpl in *. destruct (int rs) as [n|] eqn:Hn; [|discriminate].
    simpl in Hf. destruct (Remote.raceName race) as [nm|]; [|discriminate].
    simpl in Hf. case_steps Hf. injection Hf as <- <- <- <-.
    repeat split; try done. by exists n. }
  simpl. destruct (List.filter (upcoming today) races) as [|race kept].
  - apply Forall2_nil_inv_l in HL as ->. by eexists _, _.
  - destruct l as [|r l]; [by apply Forall2_nil_inv_r in HL|].
    by eexists _, _.
Qed.

(** X7.  While the date of the clock does not change, the races of a remote
    schedule are never "completed": a race dated today is "live" and the
    others are "upcoming". *)
Theorem remote_schedule_statuses (today : date) (w : World) :
  (∀ k, clock_date env k = today) →
  ∃ l w',
    get_live_race_schedule cfg env w = (Ok l, w')
    ∧ (l = _get_fallback_schedule
       ∨ ∀ r, r ∈ l →
           ∃ s d, r !! "date" = Some (VStr s) ∧ strptime s = Ok d
                  ∧ r !! "status"
                    = Some (VStr (if decide (d = today) then "live" else "upcoming"))).
Proof.
  intros Hclock. unfold get_live_race_schedule. unfold_M.
  destruct (JolpicaAPIClient.get_current_season_races cfg env w)
    as [[races|e] w1]; simpl; [|eexists _, _; eauto].
  destruct (process_races env _ races [] (tick w1)) as [[l|e] w2] eqn:E;
    [|eexists _, _; eauto].
  destruct l as [|r0 l0]; [eexists _, _; eauto|].
  eexists _, _. split; [done|]. right. intros r Hin.
  apply process_races_records in E as (l' & El & HF). simpl in El.
  rewrite El in Hin.
  destruct (Forall2_elem_of_r _ _ _ _ HF Hin)
    as (race & Hrace & d & fields & k & Hd & Hf & _ & ->).
  pose proof (processed_race_lookups env race fields
                (race_status d (clock_date env k)))
    as (_ & _ & _ & _ & Hdate & Hstatus).
  apply list_elem_of_In, filter_In in Hrace as [_ Hup].
  unfold upcoming in Hup. rewrite Hd, Hclock in Hup.
  unfold race_day in Hd. unfold mbind, result_bind in Hd.
  destruct (Remote.date race) as [s|]; [|discriminate]. simpl in *.
  exists s, d. split; [done|]. split; [done|].
  rewrite Hstatus, Hclock. do 2 f_equal.
  unfold race_status, date_gt, date_eq. unfold date_ge in Hup.
  destruct (date_compare d today) eqn:Hc; [| discriminate |].
  - apply date_compare_Eq in Hc. by rewrite decide_True.
  - rewrite decide_False; [done|]. intros ->.
    by rewrite (proj2 (date_compare_Eq today today)) in Hc.
Qed.

End remote_schedule_properties.

(** ** Standings, record by record *)

Section standings.
Context (cfg : Config) (env : Env).
Import F1DataManager.


(** The record built from a remote constructor standing. *)
Definition constructor_record (s : Remote.ConstructorStanding) (d : dict) : Prop :=
  ∃ constructor team position points wins,
    Remote.Constructor_ s = Some constructor
    ∧ Remote.name constructor = Some team
    ∧ (getitem (Remote.c_position s) ≫= int) = Ok position
    ∧ (getitem (Remote.c_points s) ≫= int) = Ok points
    ∧ (getitem (Remote.c_wins s) ≫= int) = Ok wins
    ∧ d = dict_of [("position", VInt position); ("team", VStr team);
                   ("points", VInt points); ("wins", VInt wins)].

Lemma process_constructor_standing_record s d :
  process_constructor_standing s = Ok d → constructor_record s d.
Proof.
  unfold process_constructor_standing, constructor_record.
  unfold mbind, result_bind. intros H.
  destruct (Remote.Constructor_ s) as [c|]; [|discriminate]. simpl in H.
  destruct (getitem (Remote.c_position s)) as [ps|]; [|discriminate].
  destruct (int ps) as [p|] eqn:Hp; [|discriminate].
  destruct (Remote.name c) as [team|] eqn:Hteam; [|discriminate]. simpl in H.
  destruct (getitem (Remote.c_points s)) as [pts|]; [|discriminate].
  destruct (int pts) as [n|] eqn:Hn; [|discriminate].
  destruct (getitem (Remote.c_wins s)) as [ws|]; [|discriminate].
  destruct (int ws) as [k|] eqn:Hk; [|discriminate].
  injection H as <-. by exists c, team, p, n, k.
Qed.

(** X8.  [get_constructor_standings] returns, without raising, either the static
    standings or exactly one record per remote standing, in order, holding
    the constructor's name as "team" and the position, points and wins read
    as integers; there is no partial list. *)
Theorem constructor_standings_normalized (w : World) :
  ∃ out w',
    get_constructor_standings cfg env w = (Ok out, w')
    ∧ (out = constructor_standings
       ∨ ∃ standings,
           JolpicaAPIClient.get_constructor_standings cfg env w = (Ok standings, w')
           ∧ Forall2 constructor_record standings out
           ∧ List.length out = List.length standings).
Proof.
  unfold get_constructor_standings. unfold_M.
  destruct (JolpicaAPIClient.get_constructor_standings cfg env w)
    as [[standings|e] w1] eqn:E; simpl; [|eexists _, _; eauto].
  destruct standings as [|s rest]; [eexists _, _; eauto|].
  destruct (process_standings _ (s :: rest) []) as [out|e] eqn:Ep;
    [|eexists _, _; eauto].
  exists out, w1. split; [done|]. right. exists (s :: rest). split; [done|].
  apply process_standings_Forall2 in Ep as (out' & -> & HF). simpl.
  assert (Forall2 constructor_record (s :: rest) out') as HR.
  { eapply Forall2_impl; [exact HF|].
    intros x y Hxy. by apply process_constructor_standing_record. }
  split; [done|]. apply Forall2_length in HR. simpl in *. lia.
Qed.

(** The team and the numbers of the record built from a remote driver
    standing: the team is the name of the first constructor listed, or
    "Unknown" when none is listed or the first has no name. *)
Definition driver_record (s : Remote.DriverStanding) (d : dict) : Prop :=
  ∃ constructors position points wins,
    Remote.Constructors s = Some constructors
    ∧ d !! "team" = Some (VStr (default "Unknown" (head constructors ≫= Remote.name)))
    ∧ (getitem (Remote.position s) ≫= int) = Ok position
    ∧ d !! "position" = Some (VInt position)
    ∧ (getitem (Remote.points s) ≫= int) = Ok points
    ∧ d !! "points" = Some (VInt points)
    ∧ (getitem (Remote.wins s) ≫= int) = Ok wins
    ∧ d !! "wins" = Some (VInt wins).

Lemma process_driver_standing_record s d :
  process_driver_standing s = Ok d → driver_record s d.
Proof.
  unfold process_driver_standing, driver_record.
  unfold mbind, result_bind. intros H.
  destruct (Remote.Driver_ s) as [driver|]; [|discriminate]. simpl in H.
  destruct (Remote.Constructors s) as [cs|]; [|discriminate]. simpl in H.
  destruct (getitem (Remote.position s)) as [ps|]; [|discriminate].
  destruct (int ps) as [p|] eqn:Hp; [|discriminate].
  destruct (getitem (Remote.points s)) as [pts|]; [|discriminate].
  destruct (int pts) as [n|] eqn:Hn; [|discriminate].
  destruct (getitem (Remote.wins s)) as [ws|]; [|discriminate].
  destruct (int ws) as [k|] eqn:Hk; [|discriminate].
  injection H as <-. exists cs, p, n, k. unfold dict_of. simpl.
  repeat split; try done; try by simplify_map_eq.
  destruct cs as [|c cs]; by simplify_map_eq.
Qed.

(** X9.  Unless it falls back, [get_driver_standings] returns one record per
    remote standing, in order, with the team and the integers of
    [driver_record]. *)
Theorem driver_standings_records (w : World) :
  ∃ out w',
    get_driver_standings cfg env w = (Ok out, w')
    ∧ (out = driver_standings
       ∨ ∃ standings,
           JolpicaAPIClient.get_driver_standings cfg env w = (Ok standings, w')
           ∧ Forall2 driver_record standings out
           ∧ List.length out = List.length standings).
Proof.
  unfold get_driver_standings. unfold_M.
  destruct (JolpicaAPIClient.get_driver_standings cfg env w)
    as [[standings|e] w1] eqn:E; simpl; [|eexists _, _; eauto].
  destruct standings as [|s rest]; [eexists _, _; eauto|].
  destruct (process_standings _ (s :: rest) []) as [out|e] eqn:Ep;
    [|eexists _, _; eauto].
  exists out, w1. split; [done|]. right. exists (s :: rest). split; [done|].
  apply process_standings_Forall2 in Ep as (out' & -> & HF). simpl.
  assert (Forall2 driver_record (s :: rest) out') as HR.
  { eapply Forall2_impl; [exact HF|].
    intros x y Hxy. by apply process_driver_standing_record. }
  split; [done|]. apply Forall2_length in HR. simpl in *. lia.
Qed.


End standings.

(** ** [mark_race_completed] on a manager that has a schedule *)

Section mark.
Import F1DataManager.

(** No race of [l] has the round [race_round], and each has a round. *)
Definition other_rounds (race_round : pyval) (l : list dict) : Prop :=
  Forall (λ race : dict, ∃ v, race !! "round" = Some v ∧ v ≠ race_round) l.

Lemma mark_loop_first race_round before race after :
  other_rounds race_round before →
  race !! "round" = Some race_round →
  mark_loop race_round (before ++ race :: after)
  = Ok ((before ++ <["status" := VStr "completed"]> race :: after)%list,
        Some (<["status" := VStr "completed"]> race)).
Proof.
  intros Hb Hr. induction Hb as [|x before (v & Hv & Hne) _ IH]; simpl.
  - rewrite Hr. simpl. by rewrite decide_True.
  - rewrite Hv. simpl. rewrite decide_False by done. by rewrite IH.
Qed.

Lemma mark_loop_none race_round schedule :
  other_rounds race_round schedule →
  mark_loop race_round schedule = Ok (schedule, None).
Proof.
  induction 1 as [|x rest (v & Hv & Hne) _ IH]; simpl; [done|].
  rewrite Hv. simpl. rewrite decide_False by done. by rewrite IH.
Qed.

Lemma mark_race_completed_step
    (race_round : pyval) (w : World) (before after : list dict) (race : dict) :
  race_schedule w = Some (before ++ race :: after)%list →
  other_rounds race_round before →
  race !! "round" = Some race_round →
  let marked := <["status" := VStr "completed"]> race in
  ∃ w',
    mark_race_completed race_round w = (Ok tt, w')
    ∧ race_schedule w' = Some (before ++ marked :: after)%list
    ∧ completed_races w' = (completed_races w ++ [marked])%list.
Proof.
  intros Hs Hb Hr marked. unfold mark_race_completed. unfold_M.
  rewrite Hs. rewrite (mark_loop_first _ _ _ _ Hb Hr). simpl.
  eexists. by repeat split.
Qed.

(** X11.  With a schedule set, [mark_race_completed] marks the first race of the
    given round, and only that one: its status becomes "completed", the
    race, so marked, is appended to [completed_races], every other race and
    the length of the schedule are as before.  With no race of that round
    the world is left as it was. *)
Theorem mark_race_completed_marks_first
    (race_round : pyval) (w : World) (before after : list dict) (race : dict) :
  race_schedule w = Some (before ++ race :: after)%list →
  other_rounds race_round before →
  race !! "round" = Some race_round →
  let marked := <["status" := VStr "completed"]> race in
  ∃ w',
    mark_race_completed race_round w = (Ok tt, w')
    ∧ race_schedule w' = Some (before ++ marked :: after)%list
    ∧ completed_races w' = (completed_races w ++ [marked])%list
    ∧ cache w' = cache w ∧ sent w' = sent w ∧ ticks w' = ticks w.
Proof.
  intros Hs Hb Hr marked. unfold mark_race_completed. unfold_M.
  rewrite Hs. rewrite (mark_loop_first _ _ _ _ Hb Hr). simpl.
  eexists. by repeat split.
Qed.

(** X12.  [mark_race_completed] does not look at the status: marking the same
    round twice appends the race to [completed_races] twice. *)
Theorem mark_race_completed_twice
    (race_round : pyval) (w : World) (before after : list dict) (race : dict) :
  race_schedule w = Some (before ++ race :: after)%list →
  other_rounds race_round before →
  race !! "round" = Some race_round →
  let marked := <["status" := VStr "completed"]> race in
  ∃ w' w'',
    mark_race_completed race_round w = (Ok tt, w')
    ∧ mark_race_completed race_round w' = (Ok tt, w'')
    ∧ race_schedule w'' = race_schedule w'
    ∧ completed_races w'' = (completed_races w ++ [marked; marked])%list.
Proof.
  intros Hs Hb Hr marked.
  destruct (mark_race_completed_step race_round w before after race
              Hs Hb Hr) as (w' & H1 & Hs' & Hc').
  assert (marked !! "round" = Some race_round) as Hr'.
  { unfold marked. by rewrite lookup_insert_ne. }
  destruct (mark_race_completed_step race_round w' before after marked
              Hs' Hb Hr') as (w'' & H2 & Hs'' & Hc'').
  exists w', w''. repeat split; try done.
  - rewrite Hs', Hs''. unfold marked. by rewrite insert_insert_eq.
  - rewrite Hc'', Hc'. rewrite <- app_assoc. simpl. unfold marked.
    by rewrite insert_insert_eq.
Qed.

End mark.

(** ** The offset [_convert_to_ist] adds *)

Section ist_arithmetic.
Context (env : Env).
Import F1DataManager.

(** The string [_convert_to_ist] hands to [datetime.fromisoformat]. *)
Definition iso_argument (utc_time : string) : string :=
  replace "Z" "+00:00"
    (if contains "Z" utc_time then replace "Z" "+00:00" utc_time else utc_time).

Lemma next_day_overflow d :
  valid_date d = true → (is_Ok (next_day d) = false ↔ d = Date 9999 12 31).
Proof.
  destruct d as [y m dd]. unfold valid_date, next_day. simpl. intros H.
  repeat (apply andb_prop in H as [H ?]).
  split.
  - repeat case_match; try done. intros _.
    assert (m = 12) as -> by lia. assert (y = 9999) as -> by lia.
    f_equal. unfold days_in_month in *. simpl in *. lia.
  - intros [= -> -> ->]. done.
Qed.

(** X13.  When [datetime.fromisoformat] reads the argument as a date and a time,
    the result is that time plus 5 hours 30 minutes, on the 24-hour clock,
    as two digits, a colon and two digits, whatever the date; except that on
    the last day of year 9999 a sum past midnight overflows and gives the
    default "17:00". *)
Theorem convert_to_ist_adds_offset (utc_time : string) (t : datetime) :
  fromisoformat env (iso_argument utc_time) = Ok t →
  valid_date (dt_date t) = true →
  0 ≤ hour t < 24 → 0 ≤ minute t < 60 →
  let total := hour t * 60 + minute t + 330 in
  _convert_to_ist env utc_time =
    if (total <? 1440) || negb (bool_decide (dt_date t = Date 9999 12 31))
    then two_digits (total / 60 mod 24) +:+ ":" +:+ two_digits (total mod 60)
    else "17:00".
Proof.
  intros Hparse Hvalid Hh Hm total. unfold _convert_to_ist.
  fold (iso_argument utc_time). rewrite Hparse. simpl.
  unfold add_timedelta. change (5 * 60 + 30) with 330. fold total.
  destruct (Z.ltb_spec total 1440) as [Hlt|Hge]; simpl.
  - unfold strftime_HM. simpl. rewrite (Z.mod_small (total / 60)); [done|].
    unfold total in *. Z.div_mod_to_equations. lia.
  - pose proof (next_day_overflow _ Hvalid) as Hover.
    destruct (next_day (dt_date t)) as [d|] eqn:Hd; simpl.
    + rewrite bool_decide_false.
      2:{ intros E. apply Hover in E. discriminate. }
      simpl. unfold strftime_HM. simpl.
      replace ((total - 1440) / 60) with (total / 60 mod 24).
      2:{ unfold total in *. Z.div_mod_to_equations. lia. }
      replace ((total - 1440) mod 60) with (total mod 60); [done|].
      unfold total in *. Z.div_mod_to_equations. lia.
    + rewrite bool_decide_true; [done|]. by apply Hover.
Qed.

End ist_arithmetic.

(** ** The first definition of [_get_fallback_schedule] *)

Section shadowed.
Context (cfg : Config) (env : Env).
Import F1DataManager.

(** The copy the first definition makes of a configured race whose date is
    the day [d], with the status computed at the clock reading [k]. *)
Definition with_status (k : nat) (race : dict) (d : date) : dict :=
  <["status" := VStr (race_status d (clock_date env k))]>
    (<["race_time_ist" := default (VStr "17:00") (race !! "race_time_ist")]> race).

(** Each configured race has a date that [strptime] reads. *)
Definition dated (race : dict) : Prop :=
  ∃ s d, race !! "date" = Some (VStr s) ∧ strptime s = Ok d.

Lemma shadowed_loop_spec races :
  Forall dated races →
  ∀ schedule w, ∃ l w',
    _get_fallback_schedule_shadowed_loop env races schedule w
      = (Ok (schedule ++ l)%list, w')
    ∧ Forall2
        (λ race r, ∃ s d k, race !! "date" = Some (VStr s) ∧ strptime s = Ok d
                            ∧ (ticks w ≤ k)%nat ∧ r = with_status k race d)
        races l.
Proof.
  induction 1 as [|race rest (s & d & Hs & Hd) _ IH]; intros schedule w.
  { exists [], w. rewrite app_nil_r. by split. }
  cbn [_get_fallback_schedule_shadowed_loop].
  unfold _determine_race_status, now_date. unfold_M. rewrite Hs. simpl.
  rewrite Hd. simpl.
  destruct (IH (schedule ++ [with_status (ticks w) race d])%list (tick w))
    as (l & w' & Hl & HF).
  unfold with_status in Hl. rewrite Hl.
  eexists (_ :: l), w'. rewrite <- app_assoc. split; [done|].
  constructor.
  - exists s, d, (ticks w). by repeat split.
  - eapply Forall2_impl; [exact HF|].
    intros x y (s' & d' & k & ? & ? & Hk & ?). exists s', d', k.
    repeat split; try done. simpl in Hk. lia.
Qed.

(** X14.  The first, shadowed definition does recompute the status: over
    configured races that all carry a date, it returns one copy per race,
    in order, with "race_time_ist" defaulted to "17:00", "status" set to the
    classifier's value for the race's date, and every other key kept.  A
    race without "date" makes it raise [KeyError]. *)
Theorem shadowed_fallback_recomputes_status (w : World) :
  (Forall dated (RACE_SCHEDULE cfg) →
   ∃ l w',
     _get_fallback_schedule_shadowed cfg env w = (Ok l, w')
     ∧ Forall2
         (λ race r,
            ∃ s d k, race !! "date" = Some (VStr s) ∧ strptime s = Ok d
                     ∧ r = with_status k race d
                     ∧ r !! "status" = Some (VStr (race_status d (clock_date env k)))
                     ∧ ∀ key, key ≠ "status" → key ≠ "race_time_ist" →
                              r !! key = race !! key)
         (RACE_SCHEDULE cfg) l)
  ∧ (∀ race rest, RACE_SCHEDULE cfg = race :: rest → race !! "date" = None →
       (_get_fallback_schedule_shadowed cfg env w).1 = Raise KeyError).
Proof.
  split.
  - intros Hd. unfold _get_fallback_schedule_shadowed.
    destruct (shadowed_loop_spec _ Hd [] w) as (l & w' & -> & HF).
    exists l, w'. split; [done|].
    eapply Forall2_impl; [exact HF|].
    intros race r (s & d & k & Hs & Hp & _ & ->). exists s, d, k.
    repeat split; try done.
    + unfold with_status. by rewrite lookup_insert_eq.
    + intros key H1 H2. unfold with_status.
      by rewrite !lookup_insert_ne.
  - intros race rest E Hnone. unfold _get_fallback_schedule_shadowed.
    rewrite E. cbn [_get_fallback_schedule_shadowed_loop]. unfold_M.
    by rewrite Hnone.
Qed.

End shadowed.

(** ** class JolpicaAPIClient, continued: [get_next_race] *)

Module JolpicaAPIClient2.
Section methods.
Context (cfg : Config) (env : Env).

(** The time of day of the clock, in microseconds since midnight, at each of
    its readings. *)
Context (clock_microsecond : nat → N).

(** A [datetime]: its date and the microseconds since midnight. *)
Definition moment : Type := date * N.

(** [a > b] on datetimes. *)
Definition moment_gt (a b : moment) : bool :=
  match date_compare a.1 b.1 with
  | Gt => true
  | Eq => (b.2 <? a.2)%N
  | Lt => false
  end.

(** [datetime.now()]. *)
Definition datetime_now : M moment :=
  fun w => (Ok (clock_date env (ticks w), clock_microsecond (ticks w)), tick w).

(** [datetime.strptime(s, '%Y-%m-%d')]: midnight of the day. *)
Definition strptime_datetime (s : string) : result moment :=
  d ← strptime s; Ok (d, 0%N).

(** The loop of [get_next_race]. *)
Fixpoint first_after (current_date : moment) (races : list Remote.Race)
    : result (option Remote.Race) :=
  match races with
  | [] => Ok None
  | race :: rest =>
      s ← getitem (Remote.date race);
      race_date ← strptime_datetime s;
      if moment_gt race_date current_date then Ok (Some race)
      else first_after current_date rest
  end.

Definition get_next_race : M (option Remote.Race) :=
  races ← JolpicaAPIClient.get_current_season_races cfg env;
  current_date ← datetime_now;
  lift (first_after current_date races).

End methods.
End JolpicaAPIClient2.

Section client_next_race.
Context (cfg : Config) (env : Env) (clock_microsecond : nat → N).
Import JolpicaAPIClient2.

(** A race read without error and dated [today] or earlier. *)
Definition not_after (today : date) (race : Remote.Race) : Prop :=
  ∃ d, race_day race = Ok d ∧ ¬ later d today.

Lemma first_after_spec (now : moment) races :
  match first_after now races with
  | Ok (Some race) =>
      ∃ before after d,
        races = (before ++ race :: after)%list
        ∧ race_day race = Ok d ∧ later d now.1
        ∧ Forall (not_after now.1) before
  | Ok None => Forall (not_after now.1) races
  | Raise e =>
      ∃ before race after,
        races = (before ++ race :: after)%list
        ∧ race_day race = Raise e
        ∧ Forall (not_after now.1) before
  end.
Proof.
  induction races as [|race rest IH]; simpl; [done|].
  unfold race_day, strptime_datetime, moment_gt in *.
  unfold mbind, result_bind in *.
  destruct (Remote.date race) as [s|] eqn:Hs; simpl.
  2:{ exists [], race, rest. repeat split; try done.
      unfold race_day. by rewrite Hs. }
  destruct (strptime s) as [d|e] eqn:Hd; simpl.
  2:{ exists [], race, rest. repeat split; try done.
      unfold race_day. rewrite Hs. simpl. by rewrite Hd. }
  assert (race_day race = Ok d) as Hday.
  { unfold race_day. rewrite Hs. simpl. by rewrite Hd. }
  destruct (date_compare d now.1) eqn:Hc.
  - assert (not_after now.1 race) as Hn.
    { exists d. split; [done|]. rewrite <- date_compare_Gt. congruence. }
    replace (now.2 <? 0)%N with false by (symmetry; apply N.ltb_ge; lia).
    destruct (first_after now rest) as [[r|]|e].
    + destruct IH as (before & after & d' & -> & ? & ? & ?).
      exists (race :: before), after, d'. repeat split; try done.
      by constructor.
    + by constructor.
    + destruct IH as (before & r & after & -> & ? & ?).
      exists (race :: before), r, after. repeat split; try done.
      by constructor.
  - assert (not_after now.1 race) as Hn.
    { exists d. split; [done|]. rewrite <- date_compare_Gt. congruence. }
    destruct (first_after now rest) as [[r|]|e].
    + destruct IH as (before & after & d' & -> & ? & ? & ?).
      exists (race :: before), after, d'. repeat split; try done.
      by constructor.
    + by constructor.
    + destruct IH as (before & r & after & -> & ? & ?).
      exists (race :: before), r, after. repeat split; try done.
      by constructor.
  - exists [], rest, d. repeat split; try done.
    by apply date_compare_Gt.
Qed.

(** X15.  The client's [get_next_race] returns the first race of the season dated
    strictly after today, whatever the time of day: a race dated today is
    passed over (where [get_live_race_schedule] keeps it), [None] means no
    race is dated after today, and, there being no [try], a race with no
    date or with a date that is not a calendar date, met before such a race,
    raises to the caller. *)
Theorem client_next_race_is_first_after_today
    (w w1 : World) (races : list Remote.Race) :
  JolpicaAPIClient.get_current_season_races cfg env w = (Ok races, w1) →
  let today := clock_date env (ticks w1) in
  match (get_next_race cfg env clock_microsecond w).1 with
  | Ok (Some race) =>
      ∃ before after d,
        races = (before ++ race :: after)%list
        ∧ race_day race = Ok d ∧ later d today
        ∧ Forall (not_after today) before
  | Ok None => Forall (not_after today) races
  | Raise e =>
      ∃ before race after,
        races = (before ++ race :: after)%list
        ∧ race_day race = Raise e
        ∧ Forall (not_after today) before
  end.
Proof.
  intros Hr today. unfold get_next_race, datetime_now. unfold_M.
  rewrite Hr. simpl.
  apply (first_after_spec (clock_date env (ticks w1), clock_microsecond (ticks w1))).
Qed.

End client_next_race.

(** ** The routes that serve the schedule *)

Module Routes.

(** The body a route gives to [jsonify]. *)
Inductive reply (A : Type) : Type :=
  | success (data : A)           (* {"status": "success", "data": data} *)
  | error (message : string).    (* {"status": "error", "message": message} *)
Arguments success {A} data.
Arguments error {A} message.

(** The "data" of [/api/race-schedule]. *)
Record schedule_data : Type :=
  { races : list dict; total_races : nat; season : Z }.

Section routes.
Context (cfg : Config) (env : Env).

(** [/api/next-race]: the body and the HTTP status. *)
Definition api_next_race : M (reply dict * Z) :=
  try_except
    (next_race ← F1DataManager.get_next_race cfg env;
     if bool_decide (next_race ≠ ∅)
     then mret (success next_race, 200)
     else mret (error "No upcoming races found", 404))
    Exception
    (mret (error "Internal server error", 500)).

(** [/api/race-schedule]. *)
Definition api_race_schedule : M (reply schedule_data * Z) :=
  try_except
    (races ← F1DataManager.get_race_schedule cfg env;
     mret (success {| races := races; total_races := List.length races;
                      season := 2025 |}, 200))
    Exception
    (mret (error "Internal server error", 500)).

End routes.
End Routes.

Section routes_never_fail.
Context (cfg : Config) (env : Env).

(** X16.  The two schedule routes always answer 200 with "success", whatever the
    remote source does: [/api/next-race] with the race [get_next_race]
    returns, which carries a location, and [/api/race-schedule] with the
    races of [get_live_race_schedule] and their count, which is at least
    one.  Their 404 and 500 answers are never produced. *)
Theorem schedule_routes_always_succeed (w : World) :
  (∃ race w',
     Routes.api_next_race cfg env w = (Ok (Routes.success race, 200), w')
     ∧ F1DataManager.get_next_race cfg env w = (Ok race, w')
     ∧ is_str (race !! "location") = true)
  ∧ (∃ l w',
       Routes.api_race_schedule cfg env w
       = (Ok (Routes.success
                {| Routes.races := l; Routes.total_races := List.length l;
                   Routes.season := 2025 |}, 200), w')
       ∧ F1DataManager.get_live_race_schedule cfg env w = (Ok l, w')
       ∧ (1 ≤ List.length l)%nat).
Proof.
  assert (∃ first rest w',
            F1DataManager.get_live_race_schedule cfg env w
              = (Ok (first :: rest), w')
            ∧ ∃ circuit country,
                first !! "circuit" = Some (VStr circuit)
                ∧ first !! "country" = Some (VStr country)
                ∧ first !! "location" = None)
    as (first & rest & w' & Hlive & circuit & country & Hc & Hn & Hl).
  { destruct (get_live_race_schedule_spec cfg env w)
      as (l & w' & H & [->|(Hne & races & w1 & _ & Hk)]).
    - destruct fallback_schedule_head as (first & rest & E & ? & ? & ? & _).
      rewrite E in H. exists first, rest, w'. split; [done|]. by eexists _, _.
    - destruct l as [|first rest]; [done|].
      apply Forall_cons in Hk
        as [(s & d & circuit & country & ? & ? & ? & ? & ? & ?) _].
      exists first, rest, w'. split; [done|]. by exists circuit, country. }
  pose proof (get_next_race_from _ _ _ _ _ _ _ _ Hlive Hc Hn Hl) as Hnext.
  split.
  - eexists _, w'. split; [|split; [exact Hnext|]].
    + unfold Routes.api_next_race. unfold_M. rewrite Hnext. simpl.
      rewrite bool_decide_true; [done|]. apply insert_non_empty.
    + by rewrite lookup_insert_eq.
  - exists (first :: rest), w'. split; [|split; [done|simpl; lia]].
    unfold Routes.api_race_schedule, F1DataManager.get_race_schedule.
    unfold_M. by rewrite Hlive.
Qed.

End routes_never_fail.

(** ** The properties at work *)

(** A remote source that answers every request with the given payload, on
    2025-09-22. *)
Definition serving (payload : Remote.Payload) : Env :=
  example_env 1758500000 (Date 2025 9 22)
    (λ _ _, Responded {| status_code := 200; body := JSON payload |}).

Definition season (races : list Remote.Race) : Remote.Payload :=
  {| Remote.MRData_ := Some
       {| Remote.RaceTable_ := Some {| Remote.Races := Some races |};
          Remote.StandingsTable_ := None |} |}.

Definition yesterday_race : Remote.Race :=
  example_race "16" "Yesterday Grand Prix" "2025-09-21".
Definition today_race : Remote.Race :=
  example_race "17" "Today Grand Prix" "2025-09-22".
Definition tomorrow_race : Remote.Race :=
  example_race "18" "Tomorrow Grand Prix" "2025-09-23".


Lemma serving_season races :
  races ≠ [] →
  ∃ w1,
    JolpicaAPIClient.get_current_season_races example_config
      (serving (season races)) F1DataManager.__init__ = (Ok races, w1)
    ∧ ticks w1 = 1%nat.
Proof.
  intros Hne. unfold JolpicaAPIClient.get_current_season_races. unfold_M.
  rewrite make_request_miss by done. simpl.
  destruct races as [|r rs]; [done|]. simpl. by eexists.
Qed.


Lemma remote_schedule_lists_upcoming_races_witness :
  ∃ w1 l w',
    JolpicaAPIClient.get_current_season_races example_config
      (serving (season [yesterday_race; today_race; tomorrow_race]))
      F1DataManager.__init__
    = (Ok [yesterday_race; today_race; tomorrow_race], w1)
    ∧ F1DataManager.get_live_race_schedule example_config
        (serving (season [yesterday_race; today_race; tomorrow_race]))
        F1DataManager.__init__ = (Ok l, w')
    ∧ Forall2 (lists) [today_race; tomorrow_race] l.
Proof.
  destruct (serving_season [yesterday_race; today_race; tomorrow_race])
    as (w1 & H & Ht); [done|].
  destruct (remote_schedule_lists_upcoming_races example_config
              (serving (season [yesterday_race; today_race; tomorrow_race]))
              F1DataManager.__init__ w1 _ H) as (l & w' & Hl & HF).
  - repeat (constructor; [reflexivity|]). constructor.
  - exists w1, l, w'. by repeat split.
Defined.

(** A round that opens with the separator 28 is no literal for [int()],
    which raises [ValueError]: the race is not well formed, and a season
    that holds it is answered with the static schedule. *)
Definition separator_round_race : Remote.Race :=
  example_race (String "028" "7") "Tomorrow Grand Prix" "2025-09-23".

Example separator_round_falls_back :
  int (String "028" "7") = Raise ValueError
  ∧ well_formed_remote (Date 2025 9 22) separator_round_race = false
  ∧ ∃ w',
      F1DataManager.get_live_race_schedule example_config
        (serving (season [separator_round_race])) F1DataManager.__init__
      = (Ok F1DataManager._get_fallback_schedule, w').
Proof.
  split; [reflexivity|]. split; [reflexivity|].
  set (races := [separator_round_race]).
  assert (races ≠ []) as Hne by done.
  assert (separator_round_race ∈ races) as Hin by left.
  clearbody races.
  destruct (serving_season races Hne) as (w1 & H & _).
  assert (well_formed_remote (Date 2025 9 22) separator_round_race = false)
    as Hbad by reflexivity.
  unfold F1DataManager.get_live_race_schedule. unfold_M. rewrite H. simpl.
  destruct (process_races_malformed (serving (season races)) _ _ _ Hin Hbad []
              (tick w1)) as (e & w' & ->).
  by eexists.
Qed.

Lemma remote_schedule_statuses_witness :
  (∀ k, clock_date (serving (season [today_race; tomorrow_race])) k
        = Date 2025 9 22)
  ∧ ∃ l w',
      F1DataManager.get_live_race_schedule example_config
        (serving (season [today_race; tomorrow_race])) F1DataManager.__init__
      = (Ok l, w').
Proof.
  split; [done|].
  destruct (remote_schedule_statuses example_config
              (serving (season [today_race; tomorrow_race])) (Date 2025 9 22)
              F1DataManager.__init__) as (l & w' & H & _); [done|].
  by exists l, w'.
Defined.




(** A manager whose [race_schedule] has been set to the static schedule. *)
Definition scheduled_world : World :=
  set_race_schedule (Some F1DataManager._get_fallback_schedule)
    F1DataManager.__init__.

Definition baku : dict :=
  F1DataManager.fallback_race 17 "Qatar Airways Azerbaijan Grand Prix"
    "Baku City Circuit" "Azerbaijan" "2025-09-21" "17:00" "17:00".
Definition singapore : dict :=
  F1DataManager.fallback_race 18 "Singapore Grand Prix"
    "Marina Bay Street Circuit" "Singapore" "2025-10-05" "12:00" "17:30".

Lemma baku_is_not_round_18 : other_rounds (VInt 18) [baku].
Proof.
  constructor; [|constructor]. exists (VInt 17). split; [|done].
  vm_compute. reflexivity.
Qed.

Lemma singapore_is_round_18 : singapore !! "round" = Some (VInt 18).
Proof. vm_compute. reflexivity. Qed.

Lemma mark_race_completed_marks_first_witness :
  ∃ after w',
    race_schedule scheduled_world = Some ([baku] ++ singapore :: after)%list
    ∧ F1DataManager.mark_race_completed (VInt 18) scheduled_world = (Ok tt, w')
    ∧ completed_races w' = [<["status" := VStr "completed"]> singapore].
Proof.
  eexists (tail (tail F1DataManager._get_fallback_schedule)).
  destruct (mark_race_completed_marks_first (VInt 18) scheduled_world [baku]
              (tail (tail F1DataManager._get_fallback_schedule)) singapore
              eq_refl baku_is_not_round_18 singapore_is_round_18)
    as (w' & H & _ & Hc & _).
  exists w'. by repeat split.
Defined.

Lemma mark_race_completed_twice_witness :
  ∃ after w' w'',
    race_schedule scheduled_world = Some ([baku] ++ singapore :: after)%list
    ∧ F1DataManager.mark_race_completed (VInt 18) scheduled_world = (Ok tt, w')
    ∧ F1DataManager.mark_race_completed (VInt 18) w' = (Ok tt, w'')
    ∧ List.length (completed_races w'') = 2%nat.
Proof.
  eexists (tail (tail F1DataManager._get_fallback_schedule)).
  destruct (mark_race_completed_twice (VInt 18) scheduled_world [baku]
              (tail (tail F1DataManager._get_fallback_schedule)) singapore
              eq_refl baku_is_not_round_18 singapore_is_round_18)
    as (w' & w'' & H1 & H2 & _ & Hc).
  exists w', w''. repeat split; try done. by rewrite Hc.
Defined.

Lemma convert_to_ist_adds_offset_witness :
  let env := example_env 1758500000 (Date 2025 9 22) network_down in
  let t := DateTime (Date 2025 9 21) 19 45 0 in
  fromisoformat env (iso_argument "2025-09-21T19:45:00Z") = Ok t
  ∧ F1DataManager._convert_to_ist env "2025-09-21T19:45:00Z" = "01:15".
Proof.
  intros env t.
  assert (fromisoformat env (iso_argument "2025-09-21T19:45:00Z") = Ok t) as H
    by reflexivity.
  split; [exact H|].
  rewrite (convert_to_ist_adds_offset env "2025-09-21T19:45:00Z" t H);
    [reflexivity|reflexivity|simpl; lia|simpl; lia].
Defined.

Lemma client_next_race_is_first_after_today_witness :
  ∃ w1,
    JolpicaAPIClient.get_current_season_races example_config
      (serving (season [yesterday_race; today_race; tomorrow_race]))
      F1DataManager.__init__
    = (Ok [yesterday_race; today_race; tomorrow_race], w1)
    ∧ (JolpicaAPIClient2.get_next_race example_config
         (serving (season [yesterday_race; today_race; tomorrow_race]))
         (λ _, 0%N) F1DataManager.__init__).1
      = Ok (Some tomorrow_race).
Proof.
  destruct (serving_season [yesterday_race; today_race; tomorrow_race])
    as (w1 & H & Ht); [done|].
  exists w1. split; [exact H|].
  pose proof (client_next_race_is_first_after_today example_config
                (serving (season [yesterday_race; today_race; tomorrow_race]))
                (λ _, 0%N) F1DataManager.__init__ w1 _ H) as Hspec.
  unfold JolpicaAPIClient2.get_next_race, JolpicaAPIClient2.datetime_now in *.
  unfold_M. rewrite H in *. simpl in *. reflexivity.
Defined.

(** ** The URLs a call requests *)

(** [requests_only allowed m]: the requests [m] adds to the log all go to
    URLs of [allowed]. *)
Definition requests_only (allowed : list string) {A} (m : M A) : Prop :=
  ∀ w, ∃ new, sent (m w).2 = (new ++ sent w)%list ∧ Forall (λ u, u ∈ allowed) new.

Section requests_only.
Context (allowed : list string).

Lemma requests_silent {A} (m : M A) :
  (∀ w, sent (m w).2 = sent w) → requests_only allowed m.
Proof. intros H w. exists []. by rewrite H. Qed.

Lemma requests_bind {A B} (m : M A) (k : A → M B) :
  requests_only allowed m → (∀ a, requests_only allowed (k a)) →
  requests_only allowed (m ≫= k).
Proof.
  intros Hm Hk w. unfold_M. destruct (Hm w) as (new & E & HF).
  destruct (m w) as [[a|e] w']; simpl in *; [|by exists new].
  destruct (Hk a w') as (new' & E' & HF').
  exists (new' ++ new)%list. rewrite E', E, app_assoc. split; [done|].
  by apply Forall_app.
Qed.

Lemma requests_try_except {A} (m h : M A) (c : exn → bool) :
  requests_only allowed m → requests_only allowed h →
  requests_only allowed (try_except m c h).
Proof.
  intros Hm Hh w. unfold_M. destruct (Hm w) as (new & E & HF).
  destruct (m w) as [[a|e] w']; simpl in *; [by exists new|].
  destruct (c e); [|by exists new].
  destruct (Hh w') as (new' & E' & HF').
  exists (new' ++ new)%list. rewrite E', E, app_assoc. split; [done|].
  by apply Forall_app.
Qed.

End requests_only.

Section urls.
Context (cfg : Config) (env : Env).

Lemma make_request_requests allowed endpoint :
  JolpicaAPIClient.request_url cfg endpoint ∈ allowed →
  requests_only allowed (JolpicaAPIClient._make_request cfg env endpoint).
Proof.
  intros Hin w.
  destruct (make_request_cases cfg env endpoint w)
    as [->|[Hmiss [->|[data ->]]]]; simpl.
  - by exists [].
  - exists [JolpicaAPIClient.request_url cfg endpoint]. split; [done|].
    by constructor.
  - exists [JolpicaAPIClient.request_url cfg endpoint]. split; [done|].
    by constructor.
Qed.

Local Ltac requests_step :=
  first
    [ apply make_request_requests; by repeat first [left | right]
    | apply requests_bind; [|intros ?]
    | apply requests_try_except
    | apply requests_silent; by intros []
    | match goal with
      | |- requests_only _ (match ?x with _ => _ end) => destruct x
      | |- requests_only _ (if ?x then _ else _) => destruct x
      end ].

Lemma determine_race_status_requests allowed v :
  requests_only allowed (F1DataManager._determine_race_status env v).
Proof.
  unfold F1DataManager._determine_race_status, F1DataManager.now_date.
  repeat requests_step.
Qed.

Lemma process_races_requests allowed current_date races processed :
  requests_only allowed
    (F1DataManager.process_races env current_date races processed).
Proof.
  revert processed. induction races as [|race rest IH]; intros processed;
    cbn [F1DataManager.process_races]; [by apply requests_silent|].
  apply requests_bind; [|intros ?; apply IH].
  unfold F1DataManager.process_race.
  repeat first [apply determine_race_status_requests | requests_step].
Qed.

(** The URLs of the season's races: the one [_make_request] builds for the
    configured season, and [season_races("current")]. *)
Definition schedule_urls : list string :=
  [JolpicaAPIClient.request_url cfg (pretty (get_current_season cfg));
   season_races cfg "current"].

Lemma get_live_race_schedule_requests :
  requests_only schedule_urls (F1DataManager.get_live_race_schedule cfg env).
Proof.
  unfold F1DataManager.get_live_race_schedule, F1DataManager.now_date,
    JolpicaAPIClient.get_current_season_races, schedule_urls.
  repeat first [apply process_races_requests | requests_step].
Qed.

(** The URLs a method may request. *)
Definition urls_of (m : method) : list string :=
  match m with
  | GetLiveRaceSchedule | GetNextRace | GetRaceSchedule => schedule_urls
  | GetConstructorStandings =>
      [JOLPICA_API_BASE cfg +:+ "/current/constructorStandings.json"]
  | GetDriverStandings =>
      [JOLPICA_API_BASE cfg +:+ "/current/driverStandings.json"]
  | GetLatestRaceResults | MarkRaceCompleted _ => []
  end.

(** X17.  A call only extends the log of requests, and only with the URLs of its
    resource: the schedule methods with the season's two URLs, the standings
    methods with [<base>/current/driverStandings.json] or
    [<base>/current/constructorStandings.json]; no call requests the race
    results. *)
Theorem calls_request_only_their_urls (m : method) (w : World) :
  ∃ new,
    sent (after cfg env m w) = (new ++ sent w)%list
    ∧ Forall (λ url, url ∈ urls_of m) new.
Proof.
  destruct m; simpl.
  - apply get_live_race_schedule_requests.
  - unfold F1DataManager.get_next_race.
    repeat first [apply get_live_race_schedule_requests | requests_step].
  - unfold F1DataManager.get_race_schedule.
    repeat first [apply get_live_race_schedule_requests | requests_step].
  - unfold F1DataManager.get_constructor_standings,
      JolpicaAPIClient.get_constructor_standings.
    repeat requests_step.
  - unfold F1DataManager.get_driver_standings,
      JolpicaAPIClient.get_driver_standings.
    repeat requests_step.
  - by exists [].
  - exists []. split; [|done]. unfold F1DataManager.mark_race_completed.
    unfold_M. destruct (race_schedule w); [|done].
    by destruct (F1DataManager.mark_loop _ _) as [[? [?|]]|].
Qed.

End urls.

(** ** The route [/api/mini-predictions] *)

Module MiniPredictions.

(** The dictionary [mini_predictions]. *)
Record mini_predictions : Type :=
  { championship_leader_driver : pyval;
    championship_leader_points : pyval;
    championship_leader_lead : pyval;
    fastest_qualifier : string * string;     (* driver, probability *)
    most_overtakes : string * Z;             (* driver, predicted_count *)
    best_strategy : string * Z               (* strategy, pit_stops *) }.

(** The body given to [jsonify]. *)
Inductive reply : Type :=
  | success (data : mini_predictions) (next_race : pyval) (last_updated : string)
  | error (message : string).

(** [a - b]. *)
Definition sub (a b : pyval) : result pyval :=
  match a, b with
  | VInt x, VInt y => Ok (VInt (x - y))
  | _, _ => Raise TypeError
  end.

Section route.
Context (cfg : Config) (env : Env).

(** [datetime.now().strftime("%Y-%m-%d %H:%M:%S")] at each reading of the
    clock. *)
Context (clock_stamp : nat → string).

Definition strftime_now : M string :=
  fun w => (Ok (clock_stamp (ticks w)), tick w).

Definition api_mini_predictions : M (reply * Z) :=
  try_except
    (driver_standings ← F1DataManager.get_driver_standings cfg env;
     next_race ← F1DataManager.get_next_race cfg env;
     let championship_leader :=
       match driver_standings with
       | first :: _ => first
       | [] => dict_of [("driver", VStr "Max Verstappen"); ("points", VInt 393);
                        ("position", VInt 1)]
       end in
     leader_points ← lift (getitem (championship_leader !! "points"));
     second_points ← lift
       match driver_standings with
       | _ :: second :: _ => getitem (second !! "points")
       | _ => Ok (VInt 0)
       end;
     lead ← lift (sub leader_points second_points);
     driver ← lift (getitem (championship_leader !! "driver"));
     points ← lift (getitem (championship_leader !! "points"));
     let mini_predictions :=
       {| championship_leader_driver := driver;
          championship_leader_points := points;
          championship_leader_lead := lead;
          fastest_qualifier := ("Charles Leclerc", "85%");
          most_overtakes := ("Lewis Hamilton", 8);
          best_strategy := ("Medium-Hard-Medium", 2) |} in
     name ← lift
       (if bool_decide (next_race ≠ ∅) then getitem (next_race !! "name")
        else Ok (VStr "Unknown Race"));
     last_updated ← strftime_now;
     mret (success mini_predictions name last_updated, 200))
    Exception
    (mret (error "Internal server error", 500)).

End route.
End MiniPredictions.

Section mini_predictions.
Context (cfg : Config) (env : Env) (clock_stamp : nat → string).
Import F1DataManager.

(** A standing with a driver name and integer points. *)
Definition scored (d : dict) : Prop :=
  ∃ name points, d !! "driver" = Some (VStr name) ∧ d !! "points" = Some (VInt points).

Lemma process_driver_standing_scored s d :
  process_driver_standing s = Ok d → scored d.
Proof.
  intros H. destruct (process_driver_standing_name s d H) as (drv & _ & Hn).
  destruct (process_driver_standing_record s d H)
    as (cs & pos & pts & wins & _ & _ & _ & _ & _ & Hp & _).
  by eexists _, _.
Qed.

Lemma driver_standings_scored w :
  ∃ first rest w',
    get_driver_standings cfg env w = (Ok (first :: rest), w')
    ∧ Forall scored (first :: rest).
Proof.
  assert (∃ first rest, driver_standings = first :: rest
                        ∧ Forall scored (first :: rest))
    as (f0 & r0 & E0 & H0).
  { eexists _, _. split; [reflexivity|].
    repeat constructor; eexists _, _; split; vm_compute; reflexivity. }
  unfold get_driver_standings. unfold_M.
  destruct (JolpicaAPIClient.get_driver_standings cfg env w)
    as [[standings|e] w1]; simpl.
  2:{ rewrite E0. by eexists _, _, _. }
  destruct standings as [|s rest]; [rewrite E0; by eexists _, _, _|].
  destruct (process_standings _ (s :: rest) []) as [out|e] eqn:Ep.
  2:{ rewrite E0. by eexists _, _, _. }
  apply process_standings_Forall2 in Ep as (out' & -> & HF). simpl.
  assert (Forall scored out') as Hs.
  { clear -HF. induction HF; constructor; [|done].
    by eapply process_driver_standing_scored. }
  destruct out' as [|d out']; [by apply Forall2_nil_inv_r in HF|].
  by eexists _, _, _.
Qed.

Lemma next_race_named w :
  ∃ race name w',
    get_next_race cfg env w = (Ok race, w')
    ∧ race ≠ ∅ ∧ race !! "name" = Some (VStr name).
Proof.
  assert (∃ first rest w' name circuit country,
            get_live_race_schedule cfg env w = (Ok (first :: rest), w')
            ∧ first !! "name" = Some (VStr name)
            ∧ first !! "circuit" = Some (VStr circuit)
            ∧ first !! "country" = Some (VStr country)
            ∧ first !! "location" = None)
    as (first & rest & w' & name & circuit & country & H & Hn & Hc & Hco & Hl).
  { unfold get_live_race_schedule. unfold_M.
    assert (∃ name circuit country first rest,
              _get_fallback_schedule = first :: rest
              ∧ first !! "name" = Some (VStr name)
              ∧ first !! "circuit" = Some (VStr circuit)
              ∧ first !! "country" = Some (VStr country)
              ∧ first !! "location" = None) as Hfb.
    { eexists _, _, _, _, _. split; [reflexivity|].
      repeat split; vm_compute; reflexivity. }
    destruct Hfb as (n0 & c0 & co0 & f0 & r0 & E0 & ? & ? & ? & ?).
    destruct (JolpicaAPIClient.get_current_season_races cfg env w)
      as [[races|e] w1]; simpl.
    2:{ rewrite E0. by eexists f0, r0, _, n0, c0, co0. }
    destruct (process_races env _ races [] (tick w1)) as [[l|e] w2] eqn:E.
    2:{ rewrite E0. by eexists f0, r0, _, n0, c0, co0. }
    destruct l as [|r l]; [rewrite E0; by eexists f0, r0, _, n0, c0, co0|].
    apply process_races_records in E as (l' & El & HF). simpl in El. subst l'.
    inversion HF as [|race r' kept l'' (d & fields & k & _ & _ & _ & Hr) _ Ek El];
      subst.
    pose proof (processed_race_lookups env race fields
                  (race_status d (clock_date env k)))
      as (_ & Hname & Hcircuit & Hcountry & _).
    eexists _, l, w2, _, _, _. split; [done|]. repeat split; try done.
    destruct fields as [[[? ?] ?] ?]. unfold processed_race, dict_of. simpl.
    by simplify_map_eq. }
  pose proof (get_next_race_from _ _ _ _ _ _ _ _ H Hc Hco Hl) as Hnext.
  eexists _, name, w'. split; [exact Hnext|]. split.
  - apply insert_non_empty.
  - by rewrite lookup_insert_ne.
Qed.

(** X18.  [/api/mini-predictions] always answers 200 with "success": the leader is
    the first record of [get_driver_standings], the lead is its points minus
    the points of the second record (minus 0 when there is only one), and
    the race named is the one [get_next_race] returns.  The standings are
    read before the race, the clock last; the 500 answer is never produced. *)
Theorem mini_predictions_always_succeed (w : World) :
  ∃ first rest w1 race w2 driver points name,
    get_driver_standings cfg env w = (Ok (first :: rest), w1)
    ∧ get_next_race cfg env w1 = (Ok race, w2)
    ∧ first !! "driver" = Some driver
    ∧ first !! "points" = Some (VInt points)
    ∧ race !! "name" = Some name
    ∧ ∃ second_points,
        match rest with
        | second :: _ => second !! "points" = Some (VInt second_points)
        | [] => second_points = 0
        end
        ∧ MiniPredictions.api_mini_predictions cfg env clock_stamp w
          = (Ok (MiniPredictions.success
                   {| MiniPredictions.championship_leader_driver := driver;
                      MiniPredictions.championship_leader_points := VInt points;
                      MiniPredictions.championship_leader_lead :=
                        VInt (points - second_points);
                      MiniPredictions.fastest_qualifier := ("Charles Leclerc", "85%");
                      MiniPredictions.most_overtakes := ("Lewis Hamilton", 8);
                      MiniPredictions.best_strategy := ("Medium-Hard-Medium", 2) |}
                   name (clock_stamp (ticks w2)), 200),
             tick w2).
Proof.
  destruct (driver_standings_scored w) as (first & rest & w1 & Hs & Hsc).
  destruct (next_race_named w1) as (race & name & w2 & Hr & Hne & Hname).
  apply Forall_cons in Hsc as [(driver & points & Hd & Hp) Hrest].
  assert (∃ second_points,
            match rest with
            | second :: _ => second !! "points" = Some (VInt second_points)
            | [] => second_points = 0
            end) as [second_points H2].
  { destruct rest as [|second rest']; [by exists 0|].
    apply Forall_cons in Hrest as [(? & p & _ & ?) _]. by exists p. }
  exists first, rest, w1, race, w2, (VStr driver), points, (VStr name).
  repeat split; try done. exists second_points. split; [done|].
  unfold MiniPredictions.api_mini_predictions, MiniPredictions.strftime_now.
  unfold_M. rewrite Hs, Hr. simpl. rewrite Hp, Hd. simpl.
  rewrite bool_decide_true by done. rewrite Hname. simpl.
  destruct rest as [|second rest']; simpl.
  - by subst.
  - by rewrite H2.
Qed.

End mini_predictions.
